(** * sport-match-manager-backend: the Match record codec and request handlers

    A shallow embedding of [src/models.py] and [src/main.py].

    - Python [str] values are sequences of Unicode code points ([pystr]).
    - [json.dumps] / [json.loads] are embedded on the fragment the handlers
      use: arrays of strings, with CPython's default settings
      ([ensure_ascii=True], separators [", "], strict control characters).
    - Pydantic models are embedded as a field table plus the generic
      validation loop; model instances carry their values and
      [__fields_set__].
    - The SQL session is embedded as explicit state passing over the two
      tables; a handler returns either an exception or a response together
      with the committed database. *)

From Stdlib Require Import ZArith NArith Ascii Lia.
From stdpp Require Import gmap strings list fin_maps.

Local Open Scope N_scope.

(** ** Python strings *)

(** A Python [str]: a sequence of code points. *)
Abbreviation pystr := (list N).

(** ASCII literals. *)
Definition str (s : string) : pystr :=
  (λ a, N_of_ascii a) <$> String.list_ascii_of_string s.

(** The in-progress status label, "Идет" (U+0418 U+0434 U+0435 U+0442). *)
Definition IN_PROGRESS : pystr := [1048; 1076; 1077; 1090].

Module Json.

(** *** Encoder: [json.encoder.py_encode_basestring_ascii] *)

(** One digit of ['{0:04x}'.format(n)]. *)
Definition hexdigit (k : N) : N := if k <? 10 then 48 + k else 87 + k.

Definition hex4 (n : N) : pystr :=
  [hexdigit ((n / 4096) mod 16); hexdigit ((n / 256) mod 16);
   hexdigit ((n / 16) mod 16); hexdigit (n mod 16)].

(** ['\\u{0:04x}'.format(n)] *)
Definition u_escape (n : N) : pystr := 92 :: 117 :: hex4 n.

(** The [replace] callback of [py_encode_basestring_ascii], extended with
    the identity on the characters [ESCAPE_ASCII] does not match
    (the printable ASCII range, except the quote and the backslash). *)
Definition escape_char (c : N) : pystr :=
  if c =? 92 then [92; 92]
  else if c =? 34 then [92; 34]
  else if c =? 8 then [92; 98]
  else if c =? 12 then [92; 102]
  else if c =? 10 then [92; 110]
  else if c =? 13 then [92; 114]
  else if c =? 9 then [92; 116]
  else if (32 <=? c) && (c <=? 126) then [c]
  else if c <? 65536 then u_escape c
  else
    let n := c - 65536 in
    let s1 := N.lor 55296 (N.land (N.shiftr n 10) 1023) in
    let s2 := N.lor 56320 (N.land n 1023) in
    u_escape s1 ++ u_escape s2.

Fixpoint escape (s : pystr) : pystr :=
  match s with
  | [] => []
  | c :: s' => escape_char c ++ escape s'
  end.

Definition encode_basestring_ascii (s : pystr) : pystr :=
  34 :: escape s ++ [34].

(** [', '.join(...)] of the encoded items. *)
Fixpoint join_items (l : list pystr) : pystr :=
  match l with
  | [] => []
  | [x] => encode_basestring_ascii x
  | x :: l' => encode_basestring_ascii x ++ 44 :: 32 :: join_items l'
  end.

(** [json.dumps(l)] for a list of strings. *)
Definition dumps (l : list pystr) : pystr := 91 :: join_items l ++ [93].

(** *** Decoder: [json.decoder.py_scanstring] and [JSONArray] *)

Definition hexval (c : N) : option N :=
  if (48 <=? c) && (c <=? 57) then Some (c - 48)
  else if (97 <=? c) && (c <=? 102) then Some (c - 87)
  else if (65 <=? c) && (c <=? 70) then Some (c - 55)
  else None.

(** [_decode_uXXXX]: four hexadecimal digits, either case. *)
Definition decode_uXXXX (h1 h2 h3 h4 : N) : option N :=
  match hexval h1, hexval h2, hexval h3, hexval h4 with
  | Some a, Some b, Some c, Some d => Some (((a * 16 + b) * 16 + c) * 16 + d)
  | _, _, _, _ => None
  end.

(** The [BACKSLASH] table. *)
Definition backslash (e : N) : option N :=
  if e =? 34 then Some 34
  else if e =? 92 then Some 92
  else if e =? 47 then Some 47
  else if e =? 98 then Some 8
  else if e =? 102 then Some 12
  else if e =? 110 then Some 10
  else if e =? 114 then Some 13
  else if e =? 116 then Some 9
  else None.

Definition is_high (c : N) : bool := (55296 <=? c) && (c <=? 56319).
Definition is_low (c : N) : bool := (56320 <=? c) && (c <=? 57343).

(** What follows a decoded high surrogate. *)
Inductive probe := Pair (uni : N) | Lone | Invalid.

(** [if 0xd800 <= uni <= 0xdbff and s[end:end + 2] == '\\u': ...] at the
    six characters after the first escape. *)
Definition probe_pair (uni b u l1 l2 l3 l4 : N) : probe :=
  if (b =? 92) && (u =? 117) then
    match decode_uXXXX l1 l2 l3 l4 with
    | None => Invalid
    | Some uni2 =>
        if is_low uni2
        then Pair (65536 + N.lor (N.shiftl (uni - 55296) 10) (uni2 - 56320))
        else Lone
    end
  else Lone.

Definition push (c : N) (r : option (pystr * pystr)) : option (pystr * pystr) :=
  match r with
  | Some (x, rest) => Some (c :: x, rest)
  | None => None
  end.

(** [py_scanstring(s, end, strict=True)], entered after the opening quote:
    the decoded string and the text after the closing quote; [None] for a
    [JSONDecodeError]. *)
Fixpoint scanstring (s : pystr) : option (pystr * pystr) :=
  match s with
  | [] => None
  | c :: s1 =>
      if c =? 34 then Some ([], s1)
      else if c =? 92 then
        match s1 with
        | [] => None
        | e :: s2 =>
            if e =? 117 then
              match s2 with
              | h1 :: h2 :: h3 :: h4 :: s3 =>
                  match decode_uXXXX h1 h2 h3 h4 with
                  | None => None
                  | Some uni =>
                      if is_high uni then
                        match s3 with
                        | b :: u :: l1 :: l2 :: l3 :: l4 :: s4 =>
                            match probe_pair uni b u l1 l2 l3 l4 with
                            | Pair cp => push cp (scanstring s4)
                            | Lone => push uni (scanstring s3)
                            | Invalid => None
                            end
                        | _ => push uni (scanstring s3)
                        end
                      else push uni (scanstring s3)
                  end
              | _ => None
              end
            else
              match backslash e with
              | Some ch => push ch (scanstring s2)
              | None => None
              end
        end
      else if c <? 32 then None
      else push c (scanstring s1)
  end.

(** [WHITESPACE.match(s, end).end()] *)
Fixpoint skip_ws (s : pystr) : pystr :=
  match s with
  | c :: s' =>
      if (c =? 32) || (c =? 9) || (c =? 10) || (c =? 13) then skip_ws s' else s
  | [] => []
  end.

(** The loop of [JSONArray], positioned at a value. Only string items are
    in the embedded fragment. The fuel is the length of the text. *)
Fixpoint array_items (fuel : nat) (s : pystr) : option (list pystr * pystr) :=
  match fuel with
  | O => None
  | S fuel' =>
      match s with
      | c :: s1 =>
          if c =? 34 then
            match scanstring s1 with
            | None => None
            | Some (x, s2) =>
                match skip_ws s2 with
                | d :: s3 =>
                    if d =? 93 then Some ([x], s3)
                    else if d =? 44 then
                      match array_items fuel' (skip_ws s3) with
                      | Some (l, rest) => Some (x :: l, rest)
                      | None => None
                      end
                    else None
                | [] => None
                end
            end
          else None
      | [] => None
      end
  end.

(** [json.loads(s)] on the fragment of arrays of strings: [None] stands
    for a [JSONDecodeError] and for documents outside the fragment. *)
Definition loads (s : pystr) : option (list pystr) :=
  match skip_ws s with
  | c :: s1 =>
      if c =? 91 then
        match skip_ws s1 with
        | d :: s2 =>
            if d =? 93 then
              match skip_ws s2 with [] => Some [] | _ => None end
            else
              match array_items (length s) (d :: s2) with
              | Some (l, rest) =>
                  match skip_ws rest with [] => Some l | _ => None end
              | None => None
              end
        | [] => None
        end
      else None
  | [] => None
  end.

End Json.

(** ** Python values *)

(** A [datetime]: its reading in microseconds and its UTC offset. For an
    aware value (offset present) the reading is the POSIX instant; a naive
    value only has its wall-clock reading. *)
Record datetime := Datetime { timestamp : Z; utcoffset : option Z }.

(** The values that travel through the handlers. [VIso d] is the Python
    [str] that [d.isoformat()] returns: ISO-8601 text is kept symbolic, it
    is never inspected by the handlers and pydantic parses it back to [d]. *)
Inductive value :=
| VNone
| VInt (n : Z)
| VStr (s : pystr)
| VList (l : list pystr)
| VDatetime (d : datetime)
| VIso (d : datetime).

#[global] Instance datetime_eq_dec : EqDecision datetime.
Proof. solve_decision. Defined.

#[global] Instance value_eq_dec : EqDecision value.
Proof. solve_decision. Defined.

#[global] Instance value_inhabited : Inhabited value := populate VNone.

Inductive exn :=
| HTTPException (status_code : Z)
| RequestValidationError
| ValidationError
| TypeError
| AttributeError
| JSONDecodeError.

Inductive result (A : Type) :=
| Ok (a : A)
| Raise (e : exn).
Arguments Ok {A} a.
Arguments Raise {A} e.

Definition rbind {A B} (r : result A) (k : A → result B) : result B :=
  match r with
  | Ok a => k a
  | Raise e => Raise e
  end.

Notation "x <~ r ;; k" := (rbind r (λ x, k))
  (at level 100, r at next level, right associativity).

(** [bool(v)] *)
Definition truthy (v : value) : bool :=
  match v with
  | VNone => false
  | VInt n => negb (n =? 0)%Z
  | VStr s => negb (bool_decide (s = []))
  | VList l => negb (bool_decide (l = []))
  | VDatetime _ => true
  | VIso _ => true
  end.

(** [a < b] on datetimes: naive and aware values do not compare. *)
Definition datetime_lt (a b : datetime) : result bool :=
  match utcoffset a, utcoffset b with
  | Some _, Some _ | None, None => Ok (timestamp a <? timestamp b)%Z
  | _, _ => Raise TypeError
  end.

(** [v < b] where [b] is a datetime. *)
Definition value_lt (v : value) (b : datetime) : result bool :=
  match v with
  | VDatetime a => datetime_lt a b
  | _ => Raise TypeError
  end.

(** [datetime.now(pytz.UTC)] when the clock reads [clock] microseconds. *)
Definition datetime_now (clock : Z) : datetime :=
  {| timestamp := clock; utcoffset := Some 0%Z |}.

(** [d - timedelta(minutes=m)] *)
Definition minus_minutes (d : datetime) (m : Z) : datetime :=
  {| timestamp := (timestamp d - m * 60000000)%Z; utcoffset := utcoffset d |}.

(** [v.isoformat()] *)
Definition isoformat (v : value) : result value :=
  match v with
  | VDatetime d => Ok (VIso d)
  | _ => Raise AttributeError
  end.

(** [json.dumps(v) if v else None]. Pydantic types the attribute as
    [Optional[List[str]]]; [json.dumps] is embedded on lists of strings
    only, any other truthy value is reported as a [TypeError]. *)
Definition dumps_if (v : value) : result value :=
  if truthy v then
    match v with
    | VList l => Ok (VStr (Json.dumps l))
    | _ => Raise TypeError
    end
  else Ok VNone.

(** [json.loads(v) if v else None] *)
Definition loads_if (v : value) : result value :=
  if truthy v then
    match v with
    | VStr s =>
        match Json.loads s with
        | Some l => Ok (VList l)
        | None => Raise JSONDecodeError
        end
    | VIso _ => Raise JSONDecodeError
    | _ => Raise TypeError
    end
  else Ok VNone.

(** ** Pydantic models ([src/models.py]) *)

Inductive ftype := TInt | TStr | TDatetime | TListStr.

(** A declared field: its name, its type, and its default when it has one.
    In these models the fields without a default are the required ones and
    the fields with a default are the [Optional] ones. *)
Record field := Field { fname : string; fty : ftype; fdefault : option value }.

#[global] Instance ftype_eq_dec : EqDecision ftype.
Proof. solve_decision. Defined.

#[global] Instance field_eq_dec : EqDecision field.
Proof. solve_decision. Defined.

Definition MatchCreate_fields : list field :=
  [ Field "tournament_id" TInt (Some VNone);
    Field "team1" TStr None;
    Field "team2" TStr None;
    Field "date" TDatetime None;
    Field "location" TStr None;
    Field "status" TStr None;
    Field "score1" TInt None;
    Field "score2" TInt None;
    Field "shotsOnGoal1" TInt (Some (VInt 0));
    Field "shotsOnGoal2" TInt (Some (VInt 0));
    Field "shotsOnTarget1" TInt (Some (VInt 0));
    Field "shotsOnTarget2" TInt (Some (VInt 0));
    Field "yellowCards1" TInt (Some (VInt 0));
    Field "yellowCards2" TInt (Some (VInt 0));
    Field "redCards1" TInt (Some (VInt 0));
    Field "redCards2" TInt (Some (VInt 0));
    Field "corners1" TInt (Some (VInt 0));
    Field "corners2" TInt (Some (VInt 0));
    Field "possession1" TInt (Some (VInt 0));
    Field "possession2" TInt (Some (VInt 0));
    Field "start_time" TDatetime (Some VNone);
    Field "duration" TInt (Some VNone);
    Field "goalScorers1" TListStr (Some VNone);
    Field "goalScorers2" TListStr (Some VNone);
    Field "yellowCardPlayers1" TListStr (Some VNone);
    Field "yellowCardPlayers2" TListStr (Some VNone);
    Field "redCardPlayers1" TListStr (Some VNone);
    Field "redCardPlayers2" TListStr (Some VNone);
    Field "match_type" TStr (Some VNone);
    Field "referee" TStr (Some VNone);
    Field "stage" TStr (Some VNone) ].

(** [class MatchPydantic(MatchCreate)]: the inherited fields, then [id]. *)
Definition MatchPydantic_fields : list field :=
  MatchCreate_fields ++ [ Field "id" TInt (Some VNone) ].

(** A model instance: [__dict__] and [__fields_set__]. *)
Record model := Model { values : gmap string value; fields_set : gset string }.

(** The type validators. Values arrive typed as JSON types them; pydantic's
    lenient conversions between scalar types are not embedded, such inputs
    are rejected here. A [str] is never a valid list. *)
Definition validate_type (t : ftype) (v : value) : option value :=
  match t, v with
  | TInt, VInt _ => Some v
  | TStr, VStr _ => Some v
  | TStr, VIso _ => Some v
  | TDatetime, VIso d => Some (VDatetime d)
  | TDatetime, VDatetime _ => Some v
  | TListStr, VList _ => Some v
  | _, _ => None
  end.

Definition validate_value (f : field) (v : value) : option value :=
  match v with
  | VNone => match fdefault f with Some _ => Some VNone | None => None end
  | _ => validate_type (fty f) v
  end.

(** [validate_model]: each declared field is read from the input, validated
    and recorded in [__fields_set__], or takes its default; keys that are
    not fields are ignored. *)
Fixpoint validate_model (fs : list field) (data : gmap string value) : result model :=
  match fs with
  | [] => Ok (Model ∅ ∅)
  | f :: fs' =>
      match data !! fname f with
      | Some v =>
          match validate_value f v with
          | Some v' =>
              m <~ validate_model fs' data ;;
              Ok (Model (<[fname f := v']> (values m)) ({[fname f]} ∪ fields_set m))
          | None => Raise ValidationError
          end
      | None =>
          match fdefault f with
          | Some d =>
              m <~ validate_model fs' data ;;
              Ok (Model (<[fname f := d]> (values m)) (fields_set m))
          | None => Raise ValidationError
          end
      end
  end.

Definition MatchCreate (data : gmap string value) : result model :=
  validate_model MatchCreate_fields data.

Definition MatchPydantic (data : gmap string value) : result model :=
  validate_model MatchPydantic_fields data.

(** [m.attr] *)
Definition getattr (d : gmap string value) (k : string) : value := d !!! k.

(** [m.dict(exclude=excl)] *)
Definition dict (m : model) (excl : gset string) : gmap string value :=
  filter (λ kv, kv.1 ∉ excl) (values m).

(** [m.dict(exclude_unset=True, exclude=excl)] *)
Definition dict_exclude_unset (m : model) (excl : gset string) : gmap string value :=
  filter (λ kv, kv.1 ∈ fields_set m ∧ kv.1 ∉ excl) (values m).

(** ** Tables ([src/main.py]) *)

(** A row: column name to cell. *)
Abbreviation row := (gmap string value).

(** The defaults of [class Match(SQLModel, table=True)]. A table model is
    built without validation. *)
Definition Match_defaults : row :=
  list_to_map
    [ ("id", VNone); ("tournament_id", VNone);
      ("shotsOnGoal1", VInt 0); ("shotsOnGoal2", VInt 0);
      ("shotsOnTarget1", VInt 0); ("shotsOnTarget2", VInt 0);
      ("yellowCards1", VInt 0); ("yellowCards2", VInt 0);
      ("redCards1", VInt 0); ("redCards2", VInt 0);
      ("corners1", VInt 0); ("corners2", VInt 0);
      ("possession1", VInt 0); ("possession2", VInt 0);
      ("start_time", VNone); ("duration", VNone);
      ("goalScorers1", VNone); ("goalScorers2", VNone);
      ("yellowCardPlayers1", VNone); ("yellowCardPlayers2", VNone);
      ("redCardPlayers1", VNone); ("redCardPlayers2", VNone);
      ("match_type", VNone); ("referee", VNone); ("stage", VNone) ].

(** The constructor [Match], applied to keyword arguments. *)
Definition Match (kwargs : gmap string value) : row := kwargs ∪ Match_defaults.

Record database := Database { match_table : list row; tournament_table : list row }.

Definition has_id (pk : value) (r : row) : bool :=
  bool_decide (r !! "id" = Some pk).

(** [session.get(Model, pk)] on a table. *)
Definition table_get (tbl : list row) (pk : value) : option row :=
  List.find (has_id pk) tbl.

(** The integer primary key the engine assigns: one more than the largest. *)
Definition row_id (r : row) : Z :=
  match r !! "id" with
  | Some (VInt n) => n
  | _ => 0%Z
  end.

Definition next_id (tbl : list row) : Z :=
  (1 + foldr Z.max 0 (row_id <$> tbl))%Z.

(** ** The session: state passing with exceptions *)

Definition io (A : Type) : Type := database → result A * database.

Definition ret {A} (a : A) : io A := λ db, (Ok a, db).

Definition raise {A} (e : exn) : io A := λ db, (Raise e, db).

Definition lift {A} (r : result A) : io A := λ db, (r, db).

Definition bind {A B} (m : io A) (k : A → io B) : io B :=
  λ db,
    match m db with
    | (Ok a, db') => k a db'
    | (Raise e, db') => (Raise e, db')
    end.

Notation "x <- m ;; k" := (bind m (λ x, k))
  (at level 100, m at next level, right associativity).
Notation "m ;; k" := (bind m (λ _, k))
  (at level 100, right associativity).

(** [try: body except Exception as e: raise HTTPException(status_code=500)].
    [HTTPException] is itself an [Exception]: the clause catches the
    handler's own 400 and 404 as well. What was committed stays committed. *)
Definition try_except_500 {A} (body : io A) : io A :=
  λ db,
    match body db with
    | (Ok a, db') => (Ok a, db')
    | (Raise _, db') => (Raise (HTTPException 500), db')
    end.

(** [session.get(Match, pk)] and [session.get(Tournament, pk)] *)
Definition session_get_Match (pk : value) : io (option row) :=
  λ db, (Ok (table_get (match_table db) pk), db).

Definition session_get_Tournament (pk : value) : io (option row) :=
  λ db, (Ok (table_get (tournament_table db) pk), db).

(** [session.add(r); session.commit(); session.refresh(r)] for a new row:
    the row is appended under a fresh id and read back. *)
Definition session_insert_Match (r : row) : io row :=
  λ db,
    let r' := <["id" := VInt (next_id (match_table db))]> r in
    (Ok r', Database (match_table db ++ [r']) (tournament_table db)).

(** The same three calls for a row that was loaded under [pk] and modified
    in place. *)
Definition session_update_Match (pk : value) (r : row) : io row :=
  λ db,
    (Ok r,
     Database ((λ r0, if has_id pk r0 then r else r0) <$> match_table db)
              (tournament_table db)).

(** [session.exec(select(Match)).all()] *)
Definition select_Match : io (list row) :=
  λ db, (Ok (match_table db), db).

(** [session.exec(select(Match).where(Match.tournament_id == t)).all()] *)
Definition select_Match_where_tournament_id (t : Z) : io (list row) :=
  λ db,
    (Ok (List.filter (λ r, bool_decide (r !! "tournament_id" = Some (VInt t)))
           (match_table db)), db).

(** ** Request handlers ([src/main.py]) *)

(** The fields [create_match] takes out of [match.dict()] and passes in
    encoded form. *)
Definition ENCODED_FIELDS : gset string :=
  {[ "date"; "start_time"; "goalScorers1"; "goalScorers2";
     "yellowCardPlayers1"; "yellowCardPlayers2";
     "redCardPlayers1"; "redCardPlayers2" ]}.

(** Lines 121-131 of [create_match]: the [Match] object built from the
    request, timestamps as ISO text and lists as JSON text. *)
Definition new_Match (match_ : model) : result row :=
  date <~ isoformat (getattr (values match_) "date") ;;
  start_time <~ (if truthy (getattr (values match_) "start_time")
                 then isoformat (getattr (values match_) "start_time")
                 else Ok VNone) ;;
  goalScorers1 <~ dumps_if (getattr (values match_) "goalScorers1") ;;
  goalScorers2 <~ dumps_if (getattr (values match_) "goalScorers2") ;;
  yellowCardPlayers1 <~ dumps_if (getattr (values match_) "yellowCardPlayers1") ;;
  yellowCardPlayers2 <~ dumps_if (getattr (values match_) "yellowCardPlayers2") ;;
  redCardPlayers1 <~ dumps_if (getattr (values match_) "redCardPlayers1") ;;
  redCardPlayers2 <~ dumps_if (getattr (values match_) "redCardPlayers2") ;;
  Ok (Match (<["date" := date]>
            (<["start_time" := start_time]>
            (<["goalScorers1" := goalScorers1]>
            (<["goalScorers2" := goalScorers2]>
            (<["yellowCardPlayers1" := yellowCardPlayers1]>
            (<["yellowCardPlayers2" := yellowCardPlayers2]>
            (<["redCardPlayers1" := redCardPlayers1]>
            (<["redCardPlayers2" := redCardPlayers2]>
            (dict match_ ENCODED_FIELDS)))))))))).

(** [POST /matches/] *)
Definition create_match (clock : Z) (match_ : model) : io model :=
  try_except_500 (
    let match_date := getattr (values match_) "date" in
    let current_time := datetime_now clock in
    let buffer_time := minus_minutes current_time 5 in
    too_old <- lift (value_lt match_date buffer_time) ;;
    (if too_old : bool then raise (HTTPException 400) else ret ()) ;;
    (if bool_decide (getattr (values match_) "tournament_id" ≠ VNone) then
       tournament <- session_get_Tournament (getattr (values match_) "tournament_id") ;;
       match tournament with
       | None => raise (HTTPException 404)
       | Some _ => ret ()
       end
     else ret ()) ;;
    db_match <- lift (new_Match match_) ;;
    db_match <- session_insert_Match db_match ;;
    lift (MatchPydantic db_match)).

(** The response expression shared by [get_matches],
    [get_tournament_matches] and [update_match]: the row's [dict()] with the
    six list columns replaced by their decoded value, validated as a
    [MatchPydantic]. *)
Definition decoded_MatchPydantic (r : row) : result model :=
  goalScorers1 <~ loads_if (getattr r "goalScorers1") ;;
  goalScorers2 <~ loads_if (getattr r "goalScorers2") ;;
  yellowCardPlayers1 <~ loads_if (getattr r "yellowCardPlayers1") ;;
  yellowCardPlayers2 <~ loads_if (getattr r "yellowCardPlayers2") ;;
  redCardPlayers1 <~ loads_if (getattr r "redCardPlayers1") ;;
  redCardPlayers2 <~ loads_if (getattr r "redCardPlayers2") ;;
  MatchPydantic (<["redCardPlayers2" := redCardPlayers2]>
                (<["redCardPlayers1" := redCardPlayers1]>
                (<["yellowCardPlayers2" := yellowCardPlayers2]>
                (<["yellowCardPlayers1" := yellowCardPlayers1]>
                (<["goalScorers2" := goalScorers2]>
                (<["goalScorers1" := goalScorers1]> r)))))).

(** A list comprehension whose body may raise. *)
Fixpoint comprehension {A B} (f : A → result B) (l : list A) : result (list B) :=
  match l with
  | [] => Ok []
  | a :: l' => b <~ f a ;; bs <~ comprehension f l' ;; Ok (b :: bs)
  end.

(** [GET /matches/] *)
Definition get_matches : io (list model) :=
  try_except_500 (
    matches <- select_Match ;;
    lift (comprehension decoded_MatchPydantic matches)).

(** [GET /tournaments/{tournament_id}/matches/] *)
Definition get_tournament_matches (tournament_id : Z) : io (list model) :=
  try_except_500 (
    matches <- select_Match_where_tournament_id tournament_id ;;
    lift (comprehension decoded_MatchPydantic matches)).

(** [if k in updated_data: updated_data[k] = json.dumps(updated_data[k])
    if updated_data[k] else None] *)
Definition dump_key (k : string) (updated_data : gmap string value)
  : result (gmap string value) :=
  match updated_data !! k with
  | Some v => v' <~ dumps_if v ;; Ok (<[k := v']> updated_data)
  | None => Ok updated_data
  end.

(** [if v: updated_data[k] = v.isoformat()] *)
Definition isoformat_key (k : string) (v : value) (updated_data : gmap string value)
  : result (gmap string value) :=
  if truthy v then v' <~ isoformat v ;; Ok (<[k := v']> updated_data)
  else Ok updated_data.

(** Lines 197-218 of [update_match]: the attributes to set on the stored
    row. *)
Definition updated_data (clock : Z) (match_ : model) (db_match : row)
  : result (gmap string value) :=
  let updated_data := dict_exclude_unset match_ {[ "date"; "start_time" ]} in
  updated_data <~
    (if bool_decide (updated_data !! "status" = Some (VStr IN_PROGRESS))
        && bool_decide (getattr db_match "start_time" = VNone)
     then v <~ isoformat (VDatetime (datetime_now clock)) ;;
          Ok (<["start_time" := v]> updated_data)
     else Ok updated_data) ;;
  updated_data <~ isoformat_key "date" (getattr (values match_) "date") updated_data ;;
  updated_data <~ isoformat_key "start_time" (getattr (values match_) "start_time") updated_data ;;
  updated_data <~ dump_key "goalScorers1" updated_data ;;
  updated_data <~ dump_key "goalScorers2" updated_data ;;
  updated_data <~ dump_key "yellowCardPlayers1" updated_data ;;
  updated_data <~ dump_key "yellowCardPlayers2" updated_data ;;
  updated_data <~ dump_key "redCardPlayers1" updated_data ;;
  dump_key "redCardPlayers2" updated_data.

(** [PUT /matches/{match_id}]. The loop
    [for key, value in updated_data.items(): setattr(db_match, key, value)]
    overrides the row with the dictionary. *)
Definition update_match (clock : Z) (match_id : Z) (match_ : model) : io model :=
  try_except_500 (
    db_match <- session_get_Match (VInt match_id) ;;
    match db_match with
    | None => raise (HTTPException 404)
    | Some db_match =>
        updated_data <- lift (updated_data clock match_ db_match) ;;
        let db_match := updated_data ∪ db_match in
        db_match <- session_update_Match (VInt match_id) db_match ;;
        lift (decoded_MatchPydantic db_match)
    end).

(** ** The HTTP boundary *)

(** FastAPI builds the [match: MatchCreate] argument from the JSON body and
    answers 422 without calling the handler when the body does not
    validate. *)
Definition post_matches (clock : Z) (body : gmap string value) : io model :=
  λ db,
    match MatchCreate body with
    | Ok match_ => create_match clock match_ db
    | Raise _ => (Raise RequestValidationError, db)
    end.

Definition put_matches (clock : Z) (match_id : Z) (body : gmap string value) : io model :=
  λ db,
    match MatchCreate body with
    | Ok match_ => update_match clock match_id match_ db
    | Raise _ => (Raise RequestValidationError, db)
    end.

(** The status line of the response. *)
Definition status_code {A} (r : result A) : Z :=
  match r with
  | Ok _ => 200
  | Raise (HTTPException c) => c
  | Raise RequestValidationError => 422
  | Raise _ => 500
  end.

(** ** Specification vocabulary *)

(** The six list-valued fields. *)
Definition LIST_FIELDS : list string :=
  [ "goalScorers1"; "goalScorers2"; "yellowCardPlayers1";
    "yellowCardPlayers2"; "redCardPlayers1"; "redCardPlayers2" ].

(** Well-formed text: code points in the Unicode range, and no UTF-16
    surrogate pair spelled as two separate code points. *)
Fixpoint no_split_pair (s : pystr) : bool :=
  match s with
  | c1 :: s' =>
      match s' with
      | c2 :: _ => negb (Json.is_high c1 && Json.is_low c2) && no_split_pair s'
      | [] => true
      end
  | [] => true
  end.

Definition well_formed (s : pystr) : bool :=
  forallb (λ c, c <? 1114112) s && no_split_pair s.

(** The text after an escaped high surrogate does not start with the
    escape of a low surrogate. *)
Definition no_low_escape (T : pystr) : Prop :=
  match T with
  | b :: u :: l1 :: l2 :: l3 :: l4 :: _ =>
      ∀ uni, Json.probe_pair uni b u l1 l2 l3 l4 = Json.Lone
  | _ => True
  end.

(** What a validated field holds. *)
Definition field_ok (f : field) (v : value) : Prop :=
  match v with
  | VNone => is_Some (fdefault f)
  | VInt _ => fty f = TInt
  | VStr _ | VIso _ => fty f = TStr
  | VList _ => fty f = TListStr
  | VDatetime _ => fty f = TDatetime
  end.

(** What a list column may hold: null, or the JSON text of a non-empty
    list. *)
Definition list_cell (v : value) : Prop :=
  v = VNone ∨ ∃ l, l ≠ [] ∧ v = VStr (Json.dumps l).

Definition lists_encoded (db : database) : Prop :=
  ∀ r k, r ∈ match_table db → k ∈ LIST_FIELDS → list_cell (getattr r k).

(** The databases the two writing handlers can produce, from a database
    without matches. *)
Inductive reachable : database → Prop :=
| reachable_init tournaments : reachable (Database [] tournaments)
| reachable_create db clock body match_ :
    reachable db → MatchCreate body = Ok match_ →
    reachable (create_match clock match_ db).2
| reachable_update db clock match_id body match_ :
    reachable db → MatchCreate body = Ok match_ →
    reachable (update_match clock match_id match_ db).2.

(** The request object for a body, for examples. *)
Definition request (body : gmap string value) : model :=
  match MatchCreate body with
  | Ok match_ => match_
  | Raise _ => Model ∅ ∅
  end.

(** The attribute [k] of the stored match [match_id], when there is one. *)
Definition stored (db : database) (match_id : Z) (k : string) : option value :=
  (λ r, getattr r k) <$> table_get (match_table db) (VInt match_id).

(** The defaults of a model type-check. *)
Definition defaults_ok (fs : list field) : Prop :=
  Forall (λ f, ∀ d, fdefault f = Some d → field_ok f d) fs.

(** The stored form of a validated list attribute. *)
Definition encode_cell (v : value) : value :=
  match v with
  | VList (x :: l) => VStr (Json.dumps (x :: l))
  | _ => VNone
  end.

Definition list_or_None (v : value) : Prop := v = VNone ∨ ∃ l, v = VList l.

(** The condition of the status-triggered timestamp. *)
Definition stamp_fires (match_ : model) (db_match : row) : bool :=
  bool_decide (values match_ !! "status" = Some (VStr IN_PROGRESS))
  && bool_decide (getattr db_match "start_time" = VNone).

(** An [except Exception] clause seen from the result. *)
Definition guard_500 {A} (r : result A) : result A :=
  match r with
  | Ok a => Ok a
  | Raise _ => Raise (HTTPException 500)
  end.

(** The tournament check of [create_match] passes: no [tournament_id], or
    one that [session.get] finds. *)
Definition tournament_found (m : model) (db : database) : bool :=
  if bool_decide (getattr (values m) "tournament_id" ≠ VNone)
  then bool_decide (is_Some (table_get (tournament_table db)
                               (getattr (values m) "tournament_id")))
  else true.

(** The database after the insertion of the row [r]. *)
Definition inserted (db : database) (r : row) : database :=
  Database (match_table db ++ [<["id" := VInt (next_id (match_table db))]> r])
           (tournament_table db).

(** An attribute of a response. *)
Definition response_attr (r : result model) (k : string) : result value :=
  m <~ r ;; Ok (getattr (values m) k).

(** ** Tournaments ([src/main.py]) *)

(** [class Team(SQLModel)] *)
Module Team.
Record t := Make { id : option Z; name : pystr }.
End Team.

(** [class TournamentCreate(SQLModel)] *)
Module TournamentCreate.
Record t := Make {
  name : pystr;
  location : pystr;
  startDate : pystr;
  endDate : pystr;
  teams : list Team.t
}.
End TournamentCreate.

(** The decimal digits of a positive number, most significant first; the
    fuel is its number of bits. *)
Fixpoint digits (fuel : nat) (n : N) (acc : pystr) : pystr :=
  match fuel with
  | O => acc
  | S fuel' =>
      let acc' := (48 + n mod 10) :: acc in
      if n / 10 =? 0 then acc' else digits fuel' (n / 10) acc'
  end.

(** [int.__repr__], as [json.dumps] writes an [int]. *)
Definition repr_int (z : Z) : pystr :=
  match z with
  | Z0 => [48]
  | Zpos p => digits (Pos.size_nat p) (Npos p) []
  | Zneg p => 45 :: digits (Pos.size_nat p) (Npos p) []
  end.

(** [json.dumps(team.dict())]: the keys in declaration order, [None] as
    [null]. *)
Definition dumps_team (t : Team.t) : pystr :=
  str "{" ++ 34 :: str "id" ++ 34 :: str ": "
  ++ match Team.id t with
     | None => str "null"
     | Some n => repr_int n
     end
  ++ str ", " ++ 34 :: str "name" ++ 34 :: str ": "
  ++ Json.encode_basestring_ascii (Team.name t) ++ str "}".

Fixpoint join_teams (l : list Team.t) : pystr :=
  match l with
  | [] => []
  | [t] => dumps_team t
  | t :: l' => dumps_team t ++ 44 :: 32 :: join_teams l'
  end.

(** [json.dumps([team.dict() for team in teams])] *)
Definition dumps_teams (l : list Team.t) : pystr := 91 :: join_teams l ++ [93].

(** The constructor of [class Tournament(SQLModel, table=True)], with the
    default of [id]. *)
Definition Tournament (name location startDate endDate teams : value) : row :=
  list_to_map
    [ ("id", VNone); ("name", name); ("location", location);
      ("startDate", startDate); ("endDate", endDate); ("teams", teams) ].

(** [session.add(r); session.commit(); session.refresh(r)] for a new
    tournament. *)
Definition session_insert_Tournament (r : row) : io row :=
  λ db,
    let r' := <["id" := VInt (next_id (tournament_table db))]> r in
    (Ok r', Database (match_table db) (tournament_table db ++ [r'])).

(** [session.exec(select(Tournament)).all()] *)
Definition select_Tournament : io (list row) :=
  λ db, (Ok (tournament_table db), db).

(** [POST /tournaments/]: the stored row is the response. *)
Definition create_tournament (tournament : TournamentCreate.t) : io row :=
  try_except_500 (
    let db_tournament :=
      Tournament (VStr (TournamentCreate.name tournament))
                 (VStr (TournamentCreate.location tournament))
                 (VStr (TournamentCreate.startDate tournament))
                 (VStr (TournamentCreate.endDate tournament))
                 (VStr (dumps_teams (TournamentCreate.teams tournament))) in
    db_tournament <- session_insert_Tournament db_tournament ;;
    ret db_tournament).

(** [GET /tournaments/]: the rows as stored. *)
Definition get_tournaments : io (list row) :=
  try_except_500 (
    tournaments <- select_Tournament ;;
    ret tournaments).

(** ** Stored rows that the API can serve *)

(** What the cell of a declared field may hold: a timestamp as ISO text, a
    list as the JSON text of a non-empty list of well-formed strings, any
    other field as validated. *)
Definition cell_ok (f : field) (v : value) : Prop :=
  match fty f with
  | TDatetime => (v = VNone ∧ is_Some (fdefault f)) ∨ ∃ d, v = VIso d
  | TListStr =>
      v = VNone
      ∨ ∃ l, l ≠ [] ∧ Forall (λ s, well_formed s = true) l ∧ v = VStr (Json.dumps l)
  | _ => field_ok f v
  end.

Definition row_ok (r : row) : Prop :=
  (∃ n, r !! "id" = Some (VInt n))
  ∧ ∀ f, f ∈ MatchCreate_fields → ∃ v, r !! fname f = Some v ∧ cell_ok f v.

Definition rows_ok (db : database) : Prop :=
  ∀ r, r ∈ match_table db → row_ok r.

(** The strings of the list fields of a request are well formed. *)
Definition well_formed_value (v : value) : bool :=
  match v with
  | VList l => forallb well_formed l
  | _ => true
  end.

Definition well_formed_request (m : model) : Prop :=
  map_Forall (λ _ v, well_formed_value v = true) (values m).

(** A list attribute as the API gives it back: the empty list as null. *)
Definition normalized (v : value) : value :=
  match v with
  | VList [] => VNone
  | _ => v
  end.

(** The list a stored cell decodes to. *)
Definition decode_cell (v : value) : value :=
  match v with
  | VStr s =>
      match Json.loads s with
      | Some l => VList l
      | None => VNone
      end
  | _ => VNone
  end.

(** What a response holds for the stored cell [v] of a field of type [t]:
    a list column decoded, ISO text of a timestamp parsed, any other cell
    as stored. *)
Definition served (t : ftype) (v : value) : value :=
  match t with
  | TListStr => decode_cell v
  | TDatetime =>
      match v with
      | VIso d => VDatetime d
      | _ => v
      end
  | _ => v
  end.

(** ** Sample data *)

Definition kickoff : datetime := Datetime 1700000000000000 (Some 0%Z).

(** A body with the seven required fields. *)
Definition sample_body : gmap string value :=
  list_to_map
    [ ("team1", VStr (str "Lions")); ("team2", VStr (str "Tigers"));
      ("date", VIso kickoff); ("location", VStr (str "Arena"));
      ("status", VStr (str "Scheduled")); ("score1", VInt 0);
      ("score2", VInt 0) ].

Definition empty_db : database := Database [] [].

(** The database after one match was created from [sample_body] at kickoff
    time. *)
Definition one_match_db : database :=
  (post_matches (timestamp kickoff) sample_body empty_db).2.

(** The row of a stored match, for examples. *)
Definition stored_row (db : database) (match_id : Z) : row :=
  default ∅ (table_get (match_table db) (VInt match_id)).

(** The same body with the in-progress status. *)
Definition started_body : gmap string value :=
  <["status" := VStr IN_PROGRESS]> sample_body.

(** The same body with two goal scorers. *)
Definition players_body : gmap string value :=
  <["goalScorers1" := VList [str "Alice"; str "Bob"]]> sample_body.

(** The stored state after [players_body] went through [create_match]. *)
Definition players_db : database :=
  (create_match (timestamp kickoff) (request players_body) empty_db).2.

(** [one_match_db] after its match was put in progress, five minutes after
    kickoff time. *)
Definition started_db : database :=
  (update_match (timestamp kickoff + 300000000) 1 (request started_body)
     one_match_db).2.

(** A tournament request with two teams. *)
Definition sample_tournament : TournamentCreate.t :=
  TournamentCreate.Make (str "Cup") (str "Arena") (str "2024-01-01")
    (str "2024-02-01")
    [ Team.Make (Some 1%Z) (str "Lions"); Team.Make None (str "Tigers") ].

(** A date without timezone. *)
Definition naive_body : gmap string value :=
  <["date" := VIso (Datetime 1700000000000000 None)]> sample_body.

(** * Proofs *)

Import Json.

(** ** The JSON codec *)

(** [json.dumps(["Alice", "Bob"])] is the text [["Alice", "Bob"]] with the
    quotes written as code point 34. *)
Example dumps_Alice_Bob :
  Json.dumps [str "Alice"; str "Bob"] =
  str "[" ++ 34 :: str "Alice" ++ 34 :: str ", " ++ 34 :: str "Bob" ++ 34 :: str "]".
Proof. reflexivity. Qed.

Lemma hexval_hexdigit k : k < 16 → hexval (hexdigit k) = Some k.
Proof.
  intros Hk. unfold hexval, hexdigit.
  destruct (N.ltb_spec k 10).
  - replace ((48 <=? 48 + k) && (48 + k <=? 57)) with true.
    + f_equal. lia.
    + symmetry. apply andb_true_iff. split; apply N.leb_le; lia.
  - replace ((48 <=? 87 + k) && (87 + k <=? 57)) with false.
    + replace ((97 <=? 87 + k) && (87 + k <=? 102)) with true.
      * f_equal. lia.
      * symmetry. apply andb_true_iff. split; apply N.leb_le; lia.
    + symmetry. apply andb_false_iff. right. apply N.leb_gt. lia.
Qed.

Lemma decode_hex4 n :
  n < 65536 →
  decode_uXXXX (hexdigit ((n / 4096) mod 16)) (hexdigit ((n / 256) mod 16))
               (hexdigit ((n / 16) mod 16)) (hexdigit (n mod 16)) = Some n.
Proof.
  intros Hn. unfold decode_uXXXX.
  rewrite !hexval_hexdigit by (apply N.mod_lt; lia).
  f_equal.
  pose proof (N.div_mod n 16 ltac:(lia)).
  pose proof (N.div_mod (n / 16) 16 ltac:(lia)).
  pose proof (N.div_mod (n / 256) 16 ltac:(lia)).
  assert (n / 256 = n / 16 / 16) by (rewrite N.Div0.div_div by lia; reflexivity).
  assert (n / 4096 = n / 256 / 16) by (rewrite N.Div0.div_div by lia; reflexivity).
  assert (n / 4096 < 16) by (apply N.Div0.div_lt_upper_bound; lia).
  rewrite (N.mod_small (n / 4096) 16) by lia.
  lia.
Qed.

Lemma scanstring_u h1 h2 h3 h4 T uni :
  decode_uXXXX h1 h2 h3 h4 = Some uni →
  scanstring (92 :: 117 :: h1 :: h2 :: h3 :: h4 :: T) =
  if is_high uni then
    match T with
    | b :: u :: l1 :: l2 :: l3 :: l4 :: s4 =>
        match probe_pair uni b u l1 l2 l3 l4 with
        | Pair cp => push cp (scanstring s4)
        | Lone => push uni (scanstring T)
        | Invalid => None
        end
    | _ => push uni (scanstring T)
    end
  else push uni (scanstring T).
Proof.
  intros H. cbn [scanstring].
  change (92 =? 34) with false. change (92 =? 92) with true.
  change (117 =? 117) with true. cbv iota. rewrite H.
  destruct (is_high uni); [|reflexivity].
  destruct T as [|b [|u [|l1 [|l2 [|l3 [|l4 s4]]]]]]; reflexivity.
Qed.

Lemma scanstring_u_lone h1 h2 h3 h4 T uni :
  decode_uXXXX h1 h2 h3 h4 = Some uni →
  (is_high uni = true → no_low_escape T) →
  scanstring (92 :: 117 :: h1 :: h2 :: h3 :: h4 :: T) = push uni (scanstring T).
Proof.
  intros H HT. rewrite (scanstring_u _ _ _ _ _ _ H).
  destruct (is_high uni); [|reflexivity].
  specialize (HT eq_refl).
  destruct T as [|b [|u [|l1 [|l2 [|l3 [|l4 s4]]]]]]; try reflexivity.
  simpl in HT. rewrite HT. reflexivity.
Qed.

Lemma lor_low_bits hi lo : lo < 1024 → N.lor (hi * 1024) lo = hi * 1024 + lo.
Proof.
  intros Hlo.
  assert (Hland : N.land (hi * 2 ^ 10) lo = 0).
  { apply N.bits_inj_0. intros i. rewrite N.land_spec.
    destruct (N.lt_ge_cases i 10) as [Hi | Hi].
    - rewrite N.mul_pow2_bits_low by assumption. reflexivity.
    - rewrite <- (N.mod_small lo (2 ^ 10)) by (change (2 ^ 10) with 1024; lia).
      rewrite N.mod_pow2_bits_high by assumption. apply andb_false_r. }
  change (2 ^ 10) with 1024 in Hland.
  rewrite <- N.lxor_lor by assumption.
  symmetry. apply N.add_nocarry_lxor. assumption.
Qed.

Lemma surrogate_halves c :
  65536 ≤ c → c < 1114112 →
  N.lor 55296 (N.land (N.shiftr (c - 65536) 10) 1023) = 55296 + (c - 65536) / 1024 ∧
  N.lor 56320 (N.land (c - 65536) 1023) = 56320 + (c - 65536) mod 1024.
Proof.
  intros Hlo Hhi.
  assert (Hdiv : (c - 65536) / 1024 < 1024) by (apply N.Div0.div_lt_upper_bound; lia).
  assert (Hmod : (c - 65536) mod 1024 < 1024) by (apply N.mod_lt; lia).
  rewrite N.shiftr_div_pow2. change 1023 with (N.ones 10). rewrite !N.land_ones.
  change (2 ^ 10) with 1024. rewrite (N.mod_small _ _ Hdiv).
  change 55296 with (54 * 1024). change 56320 with (55 * 1024).
  split; apply lor_low_bits; assumption.
Qed.

Lemma scanstring_escape_char c T :
  c < 1114112 → (is_high c = true → no_low_escape T) →
  scanstring (escape_char c ++ T) = push c (scanstring T).
Proof.
  intros Hc HT. unfold escape_char.
  destruct (N.eqb_spec c 92) as [->|H92]; [reflexivity|].
  destruct (N.eqb_spec c 34) as [->|H34]; [reflexivity|].
  destruct (N.eqb_spec c 8) as [->|H8]; [reflexivity|].
  destruct (N.eqb_spec c 12) as [->|H12]; [reflexivity|].
  destruct (N.eqb_spec c 10) as [->|H10]; [reflexivity|].
  destruct (N.eqb_spec c 13) as [->|H13]; [reflexivity|].
  destruct (N.eqb_spec c 9) as [->|H9]; [reflexivity|].
  destruct ((32 <=? c) && (c <=? 126)) eqn:Hp.
  - apply andb_true_iff in Hp as [Hp1 Hp2]. apply N.leb_le in Hp1.
    cbn [app scanstring].
    rewrite (proj2 (N.eqb_neq c 34) H34), (proj2 (N.eqb_neq c 92) H92).
    rewrite (proj2 (N.ltb_ge c 32) Hp1). reflexivity.
  - destruct (N.ltb_spec c 65536) as [Hbmp | Hsup].
    + unfold u_escape, hex4. cbn [app].
      apply scanstring_u_lone; [apply decode_hex4; assumption | assumption].
    + destruct (surrogate_halves c Hsup Hc) as [-> ->].
      pose proof (N.div_mod (c - 65536) 1024 ltac:(lia)) as Hqr.
      assert (Hq : (c - 65536) / 1024 < 1024) by (apply N.Div0.div_lt_upper_bound; lia).
      assert (Hr : (c - 65536) mod 1024 < 1024) by (apply N.mod_lt; lia).
      revert Hqr Hq Hr.
      generalize ((c - 65536) / 1024). generalize ((c - 65536) mod 1024).
      intros r q Hqr Hq Hr.
      unfold u_escape, hex4. cbn [app].
      rewrite (scanstring_u _ _ _ _ _ (55296 + q)) by (apply decode_hex4; lia).
      replace (is_high (55296 + q)) with true
        by (symmetry; apply andb_true_iff; split; apply N.leb_le; lia).
      unfold probe_pair. change ((92 =? 92) && (117 =? 117)) with true. cbv iota.
      rewrite decode_hex4 by lia.
      replace (is_low (56320 + r)) with true
        by (symmetry; apply andb_true_iff; split; apply N.leb_le; lia).
      replace (55296 + q - 55296) with q by lia.
      replace (56320 + r - 56320) with r by lia.
      rewrite N.shiftl_mul_pow2. change (2 ^ 10) with 1024.
      rewrite lor_low_bits by assumption.
      replace (65536 + (q * 1024 + r)) with c by lia. reflexivity.
Qed.

Lemma no_low_escape_char c T :
  c < 1114112 → is_low c = false → no_low_escape (escape_char c ++ T).
Proof.
  intros Hc Hlow. unfold escape_char.
  assert (Hsimple : ∀ x, (x =? 117) = false → no_low_escape ([92; x] ++ T)).
  { intros x Hx. destruct T as [|l1 [|l2 [|l3 [|l4 T]]]]; try exact I.
    intros uni. unfold probe_pair. rewrite Hx. reflexivity. }
  destruct (N.eqb_spec c 92) as [->|H92]; [by apply Hsimple|].
  destruct (N.eqb_spec c 34) as [->|H34]; [by apply Hsimple|].
  destruct (N.eqb_spec c 8) as [->|H8]; [by apply Hsimple|].
  destruct (N.eqb_spec c 12) as [->|H12]; [by apply Hsimple|].
  destruct (N.eqb_spec c 10) as [->|H10]; [by apply Hsimple|].
  destruct (N.eqb_spec c 13) as [->|H13]; [by apply Hsimple|].
  destruct (N.eqb_spec c 9) as [->|H9]; [by apply Hsimple|].
  destruct ((32 <=? c) && (c <=? 126)) eqn:Hp.
  - destruct T as [|u [|l1 [|l2 [|l3 [|l4 T]]]]]; try exact I.
    intros uni. unfold probe_pair.
    rewrite (proj2 (N.eqb_neq c 92) H92). reflexivity.
  - destruct (N.ltb_spec c 65536) as [Hbmp | Hsup].
    + unfold u_escape, hex4. cbn [app no_low_escape].
      intros uni. unfold probe_pair.
      change ((92 =? 92) && (117 =? 117)) with true. cbv iota.
      rewrite decode_hex4 by assumption. rewrite Hlow. reflexivity.
    + destruct (surrogate_halves c Hsup Hc) as [-> _].
      assert (Hq : (c - 65536) / 1024 < 1024) by (apply N.Div0.div_lt_upper_bound; lia).
      revert Hq. generalize ((c - 65536) / 1024). intros q Hq.
      unfold u_escape, hex4. cbn [app no_low_escape].
      intros uni. unfold probe_pair.
      change ((92 =? 92) && (117 =? 117)) with true. cbv iota.
      rewrite decode_hex4 by lia.
      replace (is_low (55296 + q)) with false; [reflexivity|].
      symmetry. apply andb_false_iff. left. apply N.leb_gt. lia.
Qed.

Lemma no_low_escape_quote rest : no_low_escape (34 :: rest).
Proof.
  destruct rest as [|u [|l1 [|l2 [|l3 [|l4 T]]]]]; try exact I.
  intros uni. reflexivity.
Qed.

Lemma well_formed_cons c s :
  well_formed (c :: s) = true →
  c < 1114112 ∧ well_formed s = true ∧
  (is_high c = true → match s with c2 :: _ => c2 < 1114112 ∧ is_low c2 = false | [] => True end).
Proof.
  intros H. unfold well_formed in H. cbn [forallb no_split_pair] in H.
  apply andb_true_iff in H as [H Hpair].
  apply andb_true_iff in H as [Hc Hall].
  apply N.ltb_lt in Hc. split; [assumption|].
  destruct s as [|c2 s].
  - split; [reflexivity | intros _; exact I].
  - apply andb_true_iff in Hpair as [Hpair Hrest].
    split; [unfold well_formed; by rewrite Hall, Hrest|].
    intros Hhigh. rewrite Hhigh in Hpair. cbn in Hpair.
    cbn [forallb] in Hall. apply andb_true_iff in Hall as [Hc2 _].
    apply N.ltb_lt in Hc2. split; [assumption|].
    by destruct (is_low c2).
Qed.

(** [py_scanstring] inverts the escaping of a well-formed string. *)
Lemma scanstring_escape s rest :
  well_formed s = true →
  scanstring (escape s ++ 34 :: rest) = Some (s, rest).
Proof.
  induction s as [|c s IH]; intros Hwf.
  - reflexivity.
  - apply well_formed_cons in Hwf as (Hc & Hs & Hnext).
    cbn [escape]. rewrite <- app_assoc.
    rewrite scanstring_escape_char.
    + rewrite (IH Hs). reflexivity.
    + assumption.
    + intros Hhigh. specialize (Hnext Hhigh).
      destruct s as [|c2 s'].
      * apply no_low_escape_quote.
      * destruct Hnext as [Hc2 Hlow]. cbn [escape]. rewrite <- app_assoc.
        by apply no_low_escape_char.
Qed.

Lemma skip_ws_quote s : skip_ws (34 :: s) = 34 :: s.
Proof. reflexivity. Qed.

Lemma join_items_head x l :
  ∃ t, join_items (x :: l) = 34 :: t.
Proof. destruct l; cbn; eauto. Qed.

Lemma array_items_join l rest fuel :
  l ≠ [] → Forall (λ s, well_formed s = true) l → (length l ≤ fuel)%nat →
  array_items fuel (join_items l ++ 93 :: rest) = Some (l, rest).
Proof.
  revert fuel. induction l as [|x l IH]; intros fuel Hne Hwf Hfuel; [done|].
  apply Forall_cons in Hwf as [Hx Hl].
  destruct fuel as [|fuel]; [cbn in Hfuel; lia|].
  destruct l as [|y l].
  - cbn [join_items encode_basestring_ascii app array_items].
    change (34 =? 34) with true. cbv iota.
    rewrite <- app_assoc. cbn [app].
    rewrite (scanstring_escape x _ Hx). reflexivity.
  - change (join_items (x :: y :: l)) with
      (encode_basestring_ascii x ++ 44 :: 32 :: join_items (y :: l)).
    unfold encode_basestring_ascii at 1.
    cbn [app array_items]. change (34 =? 34) with true. cbv iota.
    rewrite <- !app_assoc. cbn [app].
    rewrite (scanstring_escape x _ Hx).
    change (skip_ws (44 :: 32 :: join_items (y :: l) ++ 93 :: rest)) with
      (44 :: 32 :: join_items (y :: l) ++ 93 :: rest).
    cbv iota. change (44 =? 93) with false. change (44 =? 44) with true. cbv iota.
    change (skip_ws (32 :: join_items (y :: l) ++ 93 :: rest)) with
      (skip_ws (join_items (y :: l) ++ 93 :: rest)).
    destruct (join_items_head y l) as [t Ht].
    assert (Hskip : skip_ws (join_items (y :: l) ++ 93 :: rest) =
                    join_items (y :: l) ++ 93 :: rest).
    { rewrite Ht. reflexivity. }
    rewrite Hskip.
    rewrite IH; [reflexivity | done | assumption | cbn in Hfuel |- *; lia].
Qed.

Lemma length_join_items l : (length l ≤ length (join_items l))%nat.
Proof.
  induction l as [|x l IH]; [done|].
  destruct l as [|y l].
  - cbn. lia.
  - change (join_items (x :: y :: l)) with
      (encode_basestring_ascii x ++ 44 :: 32 :: join_items (y :: l)).
    rewrite length_app. cbn [length] in *. lia.
Qed.

(** [json.loads(json.dumps(l)) == l] for well-formed strings. *)
Lemma loads_dumps l :
  Forall (λ s, well_formed s = true) l → loads (dumps l) = Some l.
Proof.
  intros Hwf. destruct l as [|x l]; [reflexivity|].
  unfold loads, dumps.
  change (skip_ws (91 :: join_items (x :: l) ++ [93])) with
    (91 :: join_items (x :: l) ++ [93]).
  change (91 =? 91) with true. cbv iota.
  destruct (join_items_head x l) as [t Ht].
  assert (Hskip : skip_ws (join_items (x :: l) ++ [93]) = 34 :: t ++ [93]).
  { rewrite Ht. reflexivity. }
  rewrite Hskip. change (34 =? 93) with false. cbv iota.
  change (34 :: t ++ [93]) with ((34 :: t) ++ [93]). rewrite <- Ht.
  rewrite array_items_join; [reflexivity | done | assumption |].
  cbn [length]. rewrite length_app. pose proof (length_join_items (x :: l)).
  cbn [length] in *. lia.
Qed.

(** ** Pydantic validation *)

Lemma validate_value_ok f v v' : validate_value f v = Some v' → field_ok f v'.
Proof.
  unfold validate_value, field_ok.
  destruct v; cbn.
  - destruct (fdefault f); [|done]. intros [= <-]. eauto.
  - destruct (fty f); intros [= <-]; done.
  - destruct (fty f); intros [= <-]; done.
  - destruct (fty f); intros [= <-]; done.
  - destruct (fty f); intros [= <-]; done.
  - destruct (fty f); intros [= <-]; done.
Qed.

Lemma validate_value_idem f v : field_ok f v → validate_value f v = Some v.
Proof.
  unfold validate_value, field_ok.
  destruct v; cbn; intros H; try by rewrite H.
  destruct (fdefault f); [done|]. by destruct H.
Qed.

Lemma validate_model_dom fs data m :
  validate_model fs data = Ok m →
  ∀ k, k ∉ fname <$> fs → values m !! k = None ∧ k ∉ fields_set m.
Proof.
  revert m. induction fs as [|h fs IH]; intros m Hm k Hk.
  - injection Hm as <-. cbn. split; [apply lookup_empty | set_solver].
  - cbn [validate_model] in Hm. rewrite fmap_cons in Hk.
    apply not_elem_of_cons in Hk as [Hkh Hk].
    destruct (data !! fname h) as [v|].
    + destruct (validate_value h v); [|done].
      destruct (validate_model fs data) as [m'|]; [|done].
      injection Hm as <-. cbn. destruct (IH m' eq_refl k Hk).
      rewrite lookup_insert_ne by done. split; [done | set_solver].
    + destruct (fdefault h); [|done].
      destruct (validate_model fs data) as [m'|]; [|done].
      injection Hm as <-. cbn. destruct (IH m' eq_refl k Hk).
      rewrite lookup_insert_ne by done. done.
Qed.

Lemma validate_model_lookup fs data m :
  NoDup (fname <$> fs) → validate_model fs data = Ok m →
  ∀ f, f ∈ fs →
    values m !! fname f =
      match data !! fname f with
      | Some v => validate_value f v
      | None => fdefault f
      end
    ∧ is_Some (values m !! fname f)
    ∧ (fname f ∈ fields_set m ↔ is_Some (data !! fname f)).
Proof.
  revert m. induction fs as [|g fs IH]; intros m Hnd Hm f Hf.
  - by apply elem_of_nil in Hf.
  - rewrite fmap_cons in Hnd. apply NoDup_cons in Hnd as [Hg Hnd].
    cbn [validate_model] in Hm.
    assert (Hstep : ∃ m' v',
      validate_model fs data = Ok m' ∧
      match data !! fname g with
      | Some v => validate_value g v
      | None => fdefault g
      end = Some v' ∧
      values m = <[fname g := v']> (values m') ∧
      (fname g ∈ fields_set m ↔ is_Some (data !! fname g)) ∧
      (∀ k, k ≠ fname g → k ∈ fields_set m ↔ k ∈ fields_set m')).
    { destruct (data !! fname g) as [v|].
      - destruct (validate_value g v) as [v'|]; [|done].
        destruct (validate_model fs data) as [m'|] eqn:Hm'; [|done].
        injection Hm as <-. exists m', v'. cbn. split_and!; try done.
        + split; [eauto | set_solver].
        + set_solver.
      - destruct (fdefault g) as [d|]; [|done].
        destruct (validate_model fs data) as [m'|] eqn:Hm'; [|done].
        injection Hm as <-. exists m', d. cbn. split_and!; try done.
        split; [|by intros [? ?]].
        intros Hin. by destruct (validate_model_dom _ _ _ Hm' _ Hg). }
    destruct Hstep as (m' & v' & Hm' & Hv' & Hvals & Hsetg & Hset).
    apply elem_of_cons in Hf as [-> | Hf].
    + rewrite Hvals, lookup_insert_eq, Hv'. split_and!; [done | eauto | done].
    + assert (fname f ≠ fname g).
      { intros Heq. apply Hg. rewrite <- Heq. by apply list_elem_of_fmap_2. }
      destruct (IH m' Hnd Hm' f Hf) as (Hl & Hs & Hset').
      rewrite Hvals, lookup_insert_ne by done. split_and!; [done | done |].
      by rewrite Hset, <- Hset'.
Qed.

Lemma validate_model_success fs data :
  Forall (λ f, is_Some (match data !! fname f with
                        | Some v => validate_value f v
                        | None => fdefault f
                        end)) fs →
  ∃ m, validate_model fs data = Ok m.
Proof.
  induction 1 as [|f fs [v' Hf] _ [m Hm]]; [by eexists|].
  cbn [validate_model]. rewrite Hm.
  destruct (data !! fname f) as [v|].
  - rewrite Hf. by eexists.
  - rewrite Hf. by eexists.
Qed.

Lemma getattr_Some (d : gmap string value) k v : d !! k = Some v → getattr d k = v.
Proof. intros H. unfold getattr. by rewrite lookup_total_alt, H. Qed.

Lemma getattr_None (d : gmap string value) k : d !! k = None → getattr d k = VNone.
Proof. intros H. unfold getattr. by rewrite lookup_total_alt, H. Qed.

Lemma MatchCreate_fields_NoDup : NoDup (fname <$> MatchCreate_fields).
Proof. apply (bool_decide_unpack _). by vm_compute. Qed.

Lemma MatchPydantic_fields_NoDup : NoDup (fname <$> MatchPydantic_fields).
Proof. apply (bool_decide_unpack _). by vm_compute. Qed.

Lemma MatchPydantic_defaults_ok : defaults_ok MatchPydantic_fields.
Proof.
  unfold defaults_ok, MatchPydantic_fields, MatchCreate_fields. cbn [app].
  repeat (apply Forall_cons; split; [intros d [= <-]; cbn; eauto |]).
  apply Forall_nil_2.
Qed.

(** A model that validated holds, under each declared name, a value of the
    declared type. *)
Lemma validated_field fs data m f :
  NoDup (fname <$> fs) → defaults_ok fs → validate_model fs data = Ok m →
  f ∈ fs →
  ∃ v, values m !! fname f = Some v ∧ field_ok f v
       ∧ (fdefault f = None → fname f ∈ fields_set m).
Proof.
  intros Hnd Hdef Hm Hf.
  destruct (validate_model_lookup _ _ _ Hnd Hm f Hf) as (Hl & [v Hv] & Hset).
  exists v. split; [done|]. rewrite Hv in Hl.
  destruct (data !! fname f) as [v0|] eqn:Hdata.
  - split; [by eapply validate_value_ok | intros _; apply Hset; eauto].
  - split; [|intros Hreq; by rewrite Hreq in Hl].
    unfold defaults_ok in Hdef. rewrite Forall_forall in Hdef. by apply Hdef.
Qed.

Lemma MatchCreate_defaults_ok : defaults_ok MatchCreate_fields.
Proof.
  unfold defaults_ok, MatchCreate_fields.
  repeat (apply Forall_cons; split; [intros d [= <-]; cbn; eauto |]).
  apply Forall_nil_2.
Qed.

Lemma MatchCreate_eq body : MatchCreate body = validate_model MatchCreate_fields body.
Proof. reflexivity. Qed.

Lemma MatchCreate_lookup body m :
  MatchCreate body = Ok m →
  ∀ f, f ∈ MatchCreate_fields →
    values m !! fname f =
      match body !! fname f with
      | Some v => validate_value f v
      | None => fdefault f
      end
    ∧ is_Some (values m !! fname f)
    ∧ (fname f ∈ fields_set m ↔ is_Some (body !! fname f)).
Proof.
  intros Hm. rewrite MatchCreate_eq in Hm.
  apply (validate_model_lookup MatchCreate_fields body m MatchCreate_fields_NoDup Hm).
Qed.

Lemma MatchCreate_dom body m :
  MatchCreate body = Ok m →
  ∀ k, k ∉ fname <$> MatchCreate_fields → values m !! k = None ∧ k ∉ fields_set m.
Proof.
  intros Hm. rewrite MatchCreate_eq in Hm.
  apply (validate_model_dom MatchCreate_fields body m Hm).
Qed.

Lemma MatchCreate_field body m i f :
  MatchCreate body = Ok m → MatchCreate_fields !! i = Some f →
  ∃ v, values m !! fname f = Some v ∧ field_ok f v
       ∧ (fdefault f = None → fname f ∈ fields_set m).
Proof.
  intros Hm Hi.
  pose proof (list_elem_of_lookup_2 _ _ _ Hi) as Hf.
  rewrite MatchCreate_eq in Hm.
  apply (validated_field MatchCreate_fields body m f MatchCreate_fields_NoDup
           MatchCreate_defaults_ok Hm Hf).
Qed.

Lemma MatchCreate_date body m :
  MatchCreate body = Ok m →
  ∃ d, values m !! "date" = Some (VDatetime d) ∧ "date" ∈ fields_set m.
Proof.
  intros Hm.
  destruct (MatchCreate_field body m 3 _ Hm eq_refl) as (v & Hv & Hok & Hset).
  destruct v; cbn in Hok; try done; try (by destruct Hok).
  exists d. split; [done | by apply Hset].
Qed.

Lemma MatchCreate_start_time body m :
  MatchCreate body = Ok m →
  values m !! "start_time" = Some VNone ∨
  ∃ d, values m !! "start_time" = Some (VDatetime d).
Proof.
  intros Hm.
  destruct (MatchCreate_field body m 20 _ Hm eq_refl) as (v & Hv & Hok & _).
  destruct v; cbn in Hok; try done; eauto.
Qed.

Lemma MatchCreate_tournament_id body m :
  MatchCreate body = Ok m →
  values m !! "tournament_id" = Some VNone ∨
  ∃ n, values m !! "tournament_id" = Some (VInt n).
Proof.
  intros Hm.
  destruct (MatchCreate_field body m 0 _ Hm eq_refl) as (v & Hv & Hok & _).
  destruct v; cbn in Hok; try done; eauto.
Qed.

Lemma MatchCreate_list body m k :
  MatchCreate body = Ok m → k ∈ LIST_FIELDS →
  values m !! k = Some VNone ∨ ∃ l, values m !! k = Some (VList l).
Proof.
  intros Hm Hk. unfold LIST_FIELDS in Hk.
  repeat (apply elem_of_cons in Hk as [-> | Hk]); [..|by apply elem_of_nil in Hk].
  - destruct (MatchCreate_field body m 22 _ Hm eq_refl) as (v & Hv & Hok & _).
    destruct v; cbn in Hok; try done; eauto.
  - destruct (MatchCreate_field body m 23 _ Hm eq_refl) as (v & Hv & Hok & _).
    destruct v; cbn in Hok; try done; eauto.
  - destruct (MatchCreate_field body m 24 _ Hm eq_refl) as (v & Hv & Hok & _).
    destruct v; cbn in Hok; try done; eauto.
  - destruct (MatchCreate_field body m 25 _ Hm eq_refl) as (v & Hv & Hok & _).
    destruct v; cbn in Hok; try done; eauto.
  - destruct (MatchCreate_field body m 26 _ Hm eq_refl) as (v & Hv & Hok & _).
    destruct v; cbn in Hok; try done; eauto.
  - destruct (MatchCreate_field body m 27 _ Hm eq_refl) as (v & Hv & Hok & _).
    destruct v; cbn in Hok; try done; eauto.
Qed.

Lemma MatchCreate_no_id body m :
  MatchCreate body = Ok m → values m !! "id" = None ∧ "id" ∉ fields_set m.
Proof.
  intros Hm. apply (MatchCreate_dom _ _ Hm).
  apply (bool_decide_unpack _). by vm_compute.
Qed.

(** The required fields are always supplied. *)
Lemma MatchCreate_required body m f :
  MatchCreate body = Ok m → f ∈ MatchCreate_fields → fdefault f = None →
  is_Some (body !! fname f).
Proof.
  intros Hm Hf Hreq.
  destruct (MatchCreate_lookup _ _ Hm f Hf) as (Hl & [v Hv] & _).
  rewrite Hv in Hl. destruct (body !! fname f); [eauto | congruence].
Qed.

(** ** The dictionary of an update *)

Lemma dumps_if_list v : list_or_None v → dumps_if v = Ok (encode_cell v).
Proof. intros [-> | [[|x l] ->]]; reflexivity. Qed.

Lemma dump_key_alter k (ud : gmap string value) :
  (∀ v, ud !! k = Some v → list_or_None v) →
  dump_key k ud = Ok (alter encode_cell k ud).
Proof.
  intros Hty. unfold dump_key.
  destruct (ud !! k) as [v|] eqn:Hk.
  - rewrite (dumps_if_list v) by eauto. cbn. f_equal.
    apply map_eq. intros k'. destruct (decide (k = k')) as [<- | Hne].
    + by rewrite lookup_insert_eq, lookup_alter_eq, Hk.
    + by rewrite lookup_insert_ne, lookup_alter_ne.
  - f_equal. apply map_eq. intros k'. destruct (decide (k = k')) as [<- | Hne].
    + by rewrite lookup_alter_eq, Hk.
    + by rewrite lookup_alter_ne.
Qed.

Lemma dict_exclude_unset_lookup m excl k :
  dict_exclude_unset m excl !! k =
  if bool_decide (k ∈ fields_set m ∧ k ∉ excl) then values m !! k else None.
Proof.
  unfold dict_exclude_unset. rewrite map_lookup_filter.
  destruct (values m !! k) as [v|]; cbn.
  - case_bool_decide; by case_guard.
  - by case_bool_decide.
Qed.

Lemma dict_lookup m excl k :
  dict m excl !! k = if bool_decide (k ∉ excl) then values m !! k else None.
Proof.
  unfold dict. rewrite map_lookup_filter.
  destruct (values m !! k) as [v|]; cbn.
  - case_bool_decide; by case_guard.
  - by case_bool_decide.
Qed.

Lemma lookup_foldr_alter (f : value → value) (ks : list string) (ud : gmap string value) k :
  NoDup ks →
  foldr (λ k', alter f k') ud ks !! k =
  if bool_decide (k ∈ ks) then f <$> ud !! k else ud !! k.
Proof.
  induction ks as [|k0 ks IH]; intros Hnd; cbn [foldr].
  - case_bool_decide; [by apply elem_of_nil in H | done].
  - apply NoDup_cons in Hnd as [Hk0 Hnd]. specialize (IH Hnd).
    destruct (decide (k0 = k)) as [-> | Hne].
    + rewrite lookup_alter_eq, IH.
      rewrite (bool_decide_eq_false_2 _ Hk0).
      by rewrite bool_decide_eq_true_2 by (apply elem_of_cons; by left).
    + rewrite lookup_alter_ne by done. rewrite IH.
      case_bool_decide as H1; case_bool_decide as H2; try done.
      * exfalso. apply H2. apply elem_of_cons. by right.
      * exfalso. apply elem_of_cons in H2 as [-> | H2]; done.
Qed.

Lemma LIST_FIELDS_NoDup : NoDup (reverse LIST_FIELDS).
Proof. apply (bool_decide_unpack _). by vm_compute. Qed.

Lemma MatchCreate_status_set body m :
  MatchCreate body = Ok m → "status" ∈ fields_set m.
Proof.
  intros Hm.
  destruct (MatchCreate_field body m 5 _ Hm eq_refl) as (v & Hv & Hok & Hset).
  by apply Hset.
Qed.

(** [updated_data] never raises on a validated request, and its entries are
    known key by key. *)
Lemma updated_data_ok clock body m r :
  MatchCreate body = Ok m →
  ∃ ud, updated_data clock m r = Ok ud ∧
    (∀ k, k ∉ fields_set m → k ≠ "start_time" → ud !! k = None) ∧
    ud !! "start_time" =
      match values m !! "start_time" with
      | Some (VDatetime d) => Some (VIso d)
      | _ => if stamp_fires m r then Some (VIso (datetime_now clock)) else None
      end ∧
    (∃ d, values m !! "date" = Some (VDatetime d) ∧ ud !! "date" = Some (VIso d)) ∧
    (∀ k, k ∈ LIST_FIELDS → k ∈ fields_set m →
          ud !! k = encode_cell <$> values m !! k) ∧
    (∀ k, k ∈ fields_set m → k ∉ LIST_FIELDS → k ≠ "date" → k ≠ "start_time" →
          ud !! k = values m !! k).
Proof.
  intros Hm.
  destruct (MatchCreate_date _ _ Hm) as (d & Hdate & Hdate_set).
  pose proof (MatchCreate_status_set _ _ Hm) as Hstatus_set.
  set (ud0 := dict_exclude_unset m {["date"; "start_time"]}).
  set (ud1 := if stamp_fires m r
              then <["start_time" := VIso (datetime_now clock)]> ud0 else ud0).
  set (ud2 := <["date" := VIso d]> ud1).
  set (ud3 := match values m !! "start_time" with
              | Some (VDatetime d') => <["start_time" := VIso d']> ud2
              | _ => ud2
              end).
  assert (Hud0 : ∀ k, ud0 !! k =
            if bool_decide (k ∈ fields_set m ∧ k ∉ ({["date"; "start_time"]} : gset string))
            then values m !! k else None)
    by (intros k; apply dict_exclude_unset_lookup).
  assert (Hlist3 : ∀ k v, k ∈ LIST_FIELDS → ud3 !! k = Some v → list_or_None v).
  { intros k v Hk Hv.
    assert (Hk' : k ≠ "date" ∧ k ≠ "start_time").
    { unfold LIST_FIELDS in Hk.
      repeat (apply elem_of_cons in Hk as [-> | Hk]); [..|by apply elem_of_nil in Hk]; done. }
    destruct Hk' as [Hkd Hks].
    assert (ud3 !! k = ud0 !! k) as Heq.
    { unfold ud3, ud2, ud1.
      destruct (values m !! "start_time") as [[]|]; destruct (stamp_fires m r);
        by rewrite ?lookup_insert_ne by done. }
    rewrite Heq, Hud0 in Hv. case_bool_decide; [|done].
    destruct (MatchCreate_list _ _ k Hm Hk) as [Hn | [l Hl]]; unfold list_or_None.
    - rewrite Hn in Hv. injection Hv as <-. eauto.
    - rewrite Hl in Hv. injection Hv as <-. eauto. }
  exists (foldr (λ k, alter encode_cell k) ud3 (reverse LIST_FIELDS)).
  assert (Hfinal : ∀ k,
    foldr (λ k, alter encode_cell k) ud3 (reverse LIST_FIELDS) !! k =
    if bool_decide (k ∈ LIST_FIELDS) then encode_cell <$> ud3 !! k else ud3 !! k).
  { intros k. rewrite lookup_foldr_alter by apply LIST_FIELDS_NoDup.
    case_bool_decide as H1; case_bool_decide as H2; try done.
    - exfalso. apply H2. by apply elem_of_reverse.
    - exfalso. apply H1. by apply elem_of_reverse. }
  split.
  - unfold updated_data. fold ud0.
    assert (Hstamp : bool_decide (ud0 !! "status" = Some (VStr IN_PROGRESS))
              && bool_decide (getattr r "start_time" = VNone) = stamp_fires m r).
    { unfold stamp_fires. rewrite Hud0.
      assert (Hin : "status" ∈ fields_set m
                    ∧ "status" ∉ ({["date"; "start_time"]} : gset string))
        by (split; [done | set_solver]).
      by rewrite (bool_decide_eq_true_2 _ Hin). }
    rewrite Hstamp.
    assert (Hstep1 : (if stamp_fires m r
                      then v <~ isoformat (VDatetime (datetime_now clock)) ;;
                           Ok (<["start_time" := v]> ud0)
                      else Ok ud0) = Ok ud1).
    { unfold ud1. by destruct (stamp_fires m r). }
    rewrite Hstep1. cbn [rbind].
    rewrite (getattr_Some _ _ _ Hdate). cbn [isoformat_key truthy isoformat rbind].
    fold ud2.
    assert (Hstep3 : isoformat_key "start_time" (getattr (values m) "start_time") ud2 = Ok ud3).
    { unfold ud3. destruct (MatchCreate_start_time _ _ Hm) as [Hst | [d' Hst]].
      - by rewrite (getattr_Some _ _ _ Hst), Hst.
      - by rewrite (getattr_Some _ _ _ Hst), Hst. }
    rewrite Hstep3. cbn [rbind].
    unfold LIST_FIELDS in *. cbn [reverse rev_append foldr] in *.
    rewrite dump_key_alter; cbn [rbind].
    2:{ intros v Hv. apply (Hlist3 "goalScorers1"); [set_solver|done]. }
    rewrite dump_key_alter; cbn [rbind].
    2:{ intros v Hv. rewrite !lookup_alter_ne in Hv by done.
        apply (Hlist3 "goalScorers2"); [set_solver|done]. }
    rewrite dump_key_alter; cbn [rbind].
    2:{ intros v Hv. rewrite !lookup_alter_ne in Hv by done.
        apply (Hlist3 "yellowCardPlayers1"); [set_solver|done]. }
    rewrite dump_key_alter; cbn [rbind].
    2:{ intros v Hv. rewrite !lookup_alter_ne in Hv by done.
        apply (Hlist3 "yellowCardPlayers2"); [set_solver|done]. }
    rewrite dump_key_alter; cbn [rbind].
    2:{ intros v Hv. rewrite !lookup_alter_ne in Hv by done.
        apply (Hlist3 "redCardPlayers1"); [set_solver|done]. }
    rewrite dump_key_alter; cbn [rbind].
    2:{ intros v Hv. rewrite !lookup_alter_ne in Hv by done.
        apply (Hlist3 "redCardPlayers2"); [set_solver|done]. }
    reflexivity.
  - assert (Hud3 : ∀ k, k ≠ "date" → k ≠ "start_time" → ud3 !! k = ud0 !! k).
    { intros k Hkd Hks. unfold ud3, ud2, ud1.
      destruct (values m !! "start_time") as [[]|]; destruct (stamp_fires m r);
        by rewrite ?lookup_insert_ne by done. }
    split_and!.
    + intros k Hk Hks. rewrite Hfinal.
      assert (k ≠ "date") by (by intros ->).
      rewrite Hud3, Hud0 by done.
      assert (Hout : ¬ (k ∈ fields_set m
                        ∧ k ∉ ({["date"; "start_time"]} : gset string)))
        by (by intros [? ?]).
      rewrite (bool_decide_eq_false_2 _ Hout).
      by case_bool_decide.
    + rewrite Hfinal.
      assert (Hnl : "start_time" ∉ LIST_FIELDS)
        by (apply (bool_decide_unpack _); by vm_compute).
      rewrite (bool_decide_eq_false_2 _ Hnl).
      unfold ud3, ud2, ud1.
      assert (ud0 !! "start_time" = None) as Hnone.
      { rewrite Hud0. rewrite bool_decide_eq_false_2; [done|].
        intros [_ Hn]. apply Hn. set_solver. }
      destruct (values m !! "start_time") as [[]|]; destruct (stamp_fires m r);
        by rewrite ?lookup_insert_eq, ?lookup_insert_ne, ?lookup_insert_eq by done.
    + exists d. split; [done|]. rewrite Hfinal.
      assert (Hnl : "date" ∉ LIST_FIELDS)
        by (apply (bool_decide_unpack _); by vm_compute).
      rewrite (bool_decide_eq_false_2 _ Hnl).
      unfold ud3, ud2.
      destruct (values m !! "start_time") as [[]|];
        by rewrite ?lookup_insert_ne, ?lookup_insert_eq by done.
    + intros k Hk Hset. rewrite Hfinal, (bool_decide_eq_true_2 _ Hk).
      assert (Hk' : k ≠ "date" ∧ k ≠ "start_time").
      { unfold LIST_FIELDS in Hk.
        repeat (apply elem_of_cons in Hk as [-> | Hk]); [..|by apply elem_of_nil in Hk]; done. }
      destruct Hk' as [Hkd Hks]. rewrite Hud3, Hud0 by done.
      rewrite bool_decide_eq_true_2; [done|]. split; [done|]. set_solver.
    + intros k Hset Hk Hkd Hks. rewrite Hfinal, (bool_decide_eq_false_2 _ Hk).
      rewrite Hud3, Hud0 by done.
      rewrite bool_decide_eq_true_2; [done|]. split; [done|]. set_solver.
Qed.

(** ** Tables *)

Lemma table_get_Some tbl pk r : table_get tbl pk = Some r → r ∈ tbl ∧ r !! "id" = Some pk.
Proof.
  unfold table_get. intros H. apply find_some in H as [Hin Hid].
  split; [by apply list_elem_of_In|]. unfold has_id in Hid.
  by apply bool_decide_eq_true in Hid.
Qed.

Lemma table_get_update tbl pk r' pk' :
  r' !! "id" = Some pk →
  table_get ((λ r0, if has_id pk r0 then r' else r0) <$> tbl) pk' =
  if decide (pk' = pk)
  then match table_get tbl pk with Some _ => Some r' | None => None end
  else table_get tbl pk'.
Proof.
  intros Hid. unfold table_get.
  assert (Hr' : ∀ q, has_id q r' = bool_decide (q = pk)).
  { intros q. unfold has_id. rewrite Hid.
    case_bool_decide as H1; case_bool_decide as H2; congruence. }
  induction tbl as [|r0 tbl IH].
  - cbn. by case_decide.
  - rewrite fmap_cons. cbn [find].
    destruct (has_id pk r0) eqn:Hr0.
    + rewrite Hr'. destruct (decide (pk' = pk)) as [-> | Hne].
      * by rewrite bool_decide_eq_true_2 by done.
      * rewrite bool_decide_eq_false_2 by done.
        rewrite IH.
        assert (has_id pk' r0 = false) as ->; [|done].
        unfold has_id in *. apply bool_decide_eq_true in Hr0.
        apply bool_decide_eq_false. congruence.
    + destruct (has_id pk' r0) eqn:Hr0'.
      * destruct (decide (pk' = pk)) as [-> | Hne]; [congruence | done].
      * rewrite IH. by destruct (decide (pk' = pk)) as [-> | Hne].
Qed.

(** ** Unfolding the handlers *)

Lemma update_match_missing clock match_id m db :
  table_get (match_table db) (VInt match_id) = None →
  update_match clock match_id m db = (Raise (HTTPException 500), db).
Proof.
  intros H. unfold update_match, try_except_500, bind, session_get_Match, raise.
  by rewrite H.
Qed.

Lemma update_match_found clock match_id m db r ud :
  table_get (match_table db) (VInt match_id) = Some r →
  updated_data clock m r = Ok ud →
  update_match clock match_id m db =
  (guard_500 (decoded_MatchPydantic (ud ∪ r)),
   Database ((λ r0, if has_id (VInt match_id) r0 then ud ∪ r else r0) <$> match_table db)
            (tournament_table db)).
Proof.
  intros Hget Hud.
  unfold update_match, try_except_500, bind, session_get_Match, lift,
    session_update_Match.
  rewrite Hget, Hud. cbn.
  by destruct (decoded_MatchPydantic (ud ∪ r)).
Qed.

(** The stored row after an update of an existing match. *)
Lemma update_match_stored clock match_id body m db r :
  MatchCreate body = Ok m →
  table_get (match_table db) (VInt match_id) = Some r →
  ∃ ud, updated_data clock m r = Ok ud ∧
    table_get (match_table (update_match clock match_id m db).2) (VInt match_id)
      = Some (ud ∪ r) ∧
    ∀ pk, pk ≠ VInt match_id →
      table_get (match_table (update_match clock match_id m db).2) pk
      = table_get (match_table db) pk.
Proof.
  intros Hm Hget.
  destruct (updated_data_ok clock body m r Hm) as (ud & Hud & Hnot & _).
  exists ud. split; [done|].
  rewrite (update_match_found _ _ _ _ _ _ Hget Hud). cbn [snd match_table].
  assert (Hid : (ud ∪ r) !! "id" = Some (VInt match_id)).
  { apply table_get_Some in Hget as [_ Hid].
    rewrite lookup_union_r; [done|].
    apply Hnot; [|done]. by destruct (MatchCreate_no_id _ _ Hm). }
  split.
  - rewrite (table_get_update _ _ _ _ Hid), decide_True by done. by rewrite Hget.
  - intros pk Hpk. by rewrite (table_get_update _ _ _ _ Hid), decide_False.
Qed.

Lemma getattr_union (ud r : gmap string value) k :
  getattr (ud ∪ r) k = match ud !! k with Some v => v | None => getattr r k end.
Proof.
  unfold getattr. rewrite !lookup_total_alt, lookup_union.
  destruct (ud !! k), (r !! k); done.
Qed.

Lemma update_match_stored_attr clock match_id body m db r :
  MatchCreate body = Ok m →
  table_get (match_table db) (VInt match_id) = Some r →
  ∃ ud, updated_data clock m r = Ok ud ∧
    (∀ k, stored (update_match clock match_id m db).2 match_id k =
          Some (match ud !! k with Some v => v | None => getattr r k end)) ∧
    (∀ other k, other ≠ match_id →
          stored (update_match clock match_id m db).2 other k = stored db other k).
Proof.
  intros Hm Hget.
  destruct (update_match_stored clock _ _ _ _ _ Hm Hget) as (ud & Hud & Hsame & Hother).
  exists ud. split; [done|]. split.
  - intros k. unfold stored. rewrite Hsame. cbn. by rewrite getattr_union.
  - intros other k Hne. unfold stored. rewrite Hother; [done | congruence].
Qed.

Lemma update_match_unknown_stored clock match_id m db other k :
  table_get (match_table db) (VInt match_id) = None →
  stored (update_match clock match_id m db).2 other k = stored db other k.
Proof. intros H. by rewrite update_match_missing. Qed.

Lemma getattr_status (d : gmap string value) s :
  s ≠ [] → getattr d "status" = VStr s → d !! "status" = Some (VStr s).
Proof.
  unfold getattr. rewrite lookup_total_alt.
  destruct (d !! "status"); cbn; [congruence | done].
Qed.

Lemma getattr_start_time_cases body m :
  MatchCreate body = Ok m →
  ∀ v, getattr (values m) "start_time" = v → values m !! "start_time" = Some v.
Proof.
  intros Hm v <-.
  destruct (MatchCreate_start_time _ _ Hm) as [H | [d H]];
    by rewrite (getattr_Some _ _ _ H).
Qed.

(** The stored [start_time] after an update of an existing match. *)
Lemma update_match_start_time clock match_id body m db r :
  MatchCreate body = Ok m →
  table_get (match_table db) (VInt match_id) = Some r →
  stored (update_match clock match_id m db).2 match_id "start_time" =
  Some (match values m !! "start_time" with
        | Some (VDatetime d) => VIso d
        | _ => if stamp_fires m r then VIso (datetime_now clock)
               else getattr r "start_time"
        end).
Proof.
  intros Hm Hget.
  destruct (update_match_stored_attr clock _ _ _ _ _ Hm Hget) as (ud & Hud & Hsame & _).
  destruct (updated_data_ok clock body m r Hm) as (ud' & Hud' & _ & Hst & _).
  rewrite Hud in Hud'. injection Hud' as <-.
  rewrite Hsame, Hst.
  destruct (values m !! "start_time") as [[]|]; try done;
    by destruct (stamp_fires m r).
Qed.

Lemma stamp_fires_set m r :
  getattr r "start_time" ≠ VNone → stamp_fires m r = false.
Proof.
  intros H. unfold stamp_fires. rewrite (bool_decide_eq_false_2 _ H).
  apply andb_false_r.
Qed.

Lemma stamp_fires_unset m r :
  getattr (values m) "status" = VStr IN_PROGRESS →
  getattr r "start_time" = VNone → stamp_fires m r = true.
Proof.
  intros Hs Hr. unfold stamp_fires.
  rewrite (bool_decide_eq_true_2 _ Hr), bool_decide_eq_true_2; [done|].
  by apply getattr_status.
Qed.

Lemma stored_Some db match_id k v :
  stored db match_id k = Some v →
  ∃ r, table_get (match_table db) (VInt match_id) = Some r ∧ getattr r k = v.
Proof.
  unfold stored. destruct (table_get _ _) as [r|]; [|done].
  intros [= <-]. eauto.
Qed.

(** C5 — On an update of an existing match: when the incoming status is the
    in-progress label, the stored start_time is unset and the request carries
    no start_time, the stored start_time becomes the current time; a second
    update with the same status (at any later clock reading) leaves that
    timestamp in place; and a start_time supplied in the request is the one
    stored, whatever the status. *)
Theorem status_stamps_start_time_once clock clock' match_id body m body' m' db :
  MatchCreate body = Ok m → MatchCreate body' = Ok m' →
  is_Some (table_get (match_table db) (VInt match_id)) →
  let db1 := (update_match clock match_id m db).2 in
  let db2 := (update_match clock' match_id m' db1).2 in
  (getattr (values m) "status" = VStr IN_PROGRESS →
   stored db match_id "start_time" = Some VNone →
   getattr (values m) "start_time" = VNone →
     stored db1 match_id "start_time" = Some (VIso (datetime_now clock)) ∧
     (getattr (values m') "status" = VStr IN_PROGRESS →
      getattr (values m') "start_time" = VNone →
      stored db2 match_id "start_time" = Some (VIso (datetime_now clock))))
  ∧ (∀ d, getattr (values m) "start_time" = VDatetime d →
       stored db1 match_id "start_time" = Some (VIso d)).
Proof.
  intros Hm Hm' [r Hget] db1 db2.
  pose proof (update_match_start_time clock _ _ _ _ _ Hm Hget) as Hdb1.
  fold db1 in Hdb1. split.
  - intros Hstatus Hunset Hnone.
    apply stored_Some in Hunset as (r0 & Hr0 & Hunset).
    rewrite Hget in Hr0. injection Hr0 as <-.
    rewrite (getattr_start_time_cases _ _ Hm _ Hnone) in Hdb1.
    rewrite (stamp_fires_unset _ _ Hstatus Hunset) in Hdb1.
    split; [exact Hdb1|].
    intros Hstatus' Hnone'.
    destruct (stored_Some _ _ _ _ Hdb1) as (r1 & Hget1 & Hr1).
    pose proof (update_match_start_time clock' _ _ _ _ _ Hm' Hget1) as Hdb2.
    fold db2 in Hdb2.
    rewrite (getattr_start_time_cases _ _ Hm' _ Hnone') in Hdb2.
    rewrite stamp_fires_set in Hdb2 by (by rewrite Hr1).
    by rewrite Hr1 in Hdb2.
  - intros d Hd.
    by rewrite (getattr_start_time_cases _ _ Hm _ Hd) in Hdb1.
Qed.

(** C10 — Once the stored start_time of a match is non-null, no update
    makes it null again: after any update_match call the stored value is
    still non-null; it is the same value when the request has no start_time
    (omitted or explicitly null), and otherwise it is the ISO text of the
    supplied timestamp. *)
Theorem start_time_never_reset clock match_id body m db other v :
  MatchCreate body = Ok m →
  stored db other "start_time" = Some v → v ≠ VNone →
  ∃ v', stored (update_match clock match_id m db).2 other "start_time" = Some v'
        ∧ v' ≠ VNone
        ∧ (getattr (values m) "start_time" = VNone → v' = v)
        ∧ (v' = v ∨ ∃ d, getattr (values m) "start_time" = VDatetime d ∧ v' = VIso d).
Proof.
  intros Hm Hv Hset.
  destruct (table_get (match_table db) (VInt match_id)) as [r|] eqn:Hget.
  - destruct (decide (other = match_id)) as [-> | Hne].
    + pose proof (update_match_start_time clock _ _ _ _ _ Hm Hget) as Hdb1.
      apply stored_Some in Hv as (r0 & Hr0 & Hv).
      rewrite Hget in Hr0. injection Hr0 as <-.
      rewrite stamp_fires_set in Hdb1 by (by rewrite Hv).
      rewrite Hv in Hdb1.
      destruct (MatchCreate_start_time _ _ Hm) as [Hst | [d Hst]];
        rewrite Hst in Hdb1; rewrite Hdb1.
      * exists v. eauto.
      * exists (VIso d). rewrite (getattr_Some _ _ _ Hst).
        split_and!; [done | done | done | eauto].
    + destruct (update_match_stored_attr clock _ _ _ _ _ Hm Hget) as (ud & _ & _ & Hother).
      rewrite Hother by done. exists v. eauto.
  - rewrite update_match_unknown_stored by done. exists v. eauto.
Qed.

Lemma fields_set_supplied body m k :
  MatchCreate body = Ok m → k ∈ fields_set m → is_Some (body !! k).
Proof.
  intros Hm Hk.
  destruct (decide (k ∈ fname <$> MatchCreate_fields)) as [Hin | Hnot].
  - apply list_elem_of_fmap_1 in Hin as (f & -> & Hf).
    by apply (MatchCreate_lookup _ _ Hm f Hf).
  - by destruct (MatchCreate_dom _ _ Hm k Hnot).
Qed.

(** C6 (amended) — An update request that passes the MatchCreate schema has
    supplied every required field; on an existing match, every field the
    body does not supply keeps its stored value (start_time apart), a
    start_time that is not supplied and not stamped keeps its stored value,
    the supplied plain fields are stored as supplied and the supplied lists
    in encoded form, and the other rows are left alone. *)
Theorem update_match_applies_supplied_fields clock match_id body m db :
  MatchCreate body = Ok m →
  is_Some (table_get (match_table db) (VInt match_id)) →
  let db' := (update_match clock match_id m db).2 in
  (∀ f, f ∈ MatchCreate_fields → fdefault f = None → is_Some (body !! fname f))
  ∧ (∀ k, body !! k = None → k ≠ "start_time" →
          stored db' match_id k = stored db match_id k)
  ∧ (getattr (values m) "start_time" = VNone →
     ¬ (getattr (values m) "status" = VStr IN_PROGRESS
        ∧ stored db match_id "start_time" = Some VNone) →
          stored db' match_id "start_time" = stored db match_id "start_time")
  ∧ (∀ k, k ∈ fields_set m → k ∉ LIST_FIELDS → k ≠ "date" → k ≠ "start_time" →
          stored db' match_id k = Some (getattr (values m) k))
  ∧ (∀ k, k ∈ fields_set m → k ∈ LIST_FIELDS →
          stored db' match_id k = Some (encode_cell (getattr (values m) k)))
  ∧ (∀ other k, other ≠ match_id → stored db' other k = stored db other k).
Proof.
  intros Hm [r Hget] db'.
  destruct (update_match_stored_attr clock _ _ _ _ _ Hm Hget) as (ud & Hud & Hsame & Hother).
  destruct (updated_data_ok clock body m r Hm)
    as (ud' & Hud' & Hnot & Hst & _ & Hlists & Hplain).
  rewrite Hud in Hud'. injection Hud' as <-.
  fold db' in Hsame, Hother.
  assert (Hold : ∀ k, stored db match_id k = Some (getattr r k))
    by (intros k; unfold stored; by rewrite Hget).
  split_and!.
  - intros f Hf Hreq. by eapply MatchCreate_required.
  - intros k Hk Hks. rewrite Hsame, Hold, Hnot; [done | | done].
    intros Hin. apply (fields_set_supplied _ _ _ Hm) in Hin as [? ?]. congruence.
  - intros Hnone Hstamp. rewrite Hsame, Hold, Hst.
    rewrite (getattr_start_time_cases _ _ Hm _ Hnone).
    destruct (stamp_fires m r) eqn:Hfires; [|done].
    exfalso. apply Hstamp. unfold stamp_fires in Hfires.
    apply andb_true_iff in Hfires as [H1 H2].
    apply bool_decide_eq_true in H1. apply bool_decide_eq_true in H2.
    split; [by apply getattr_Some | by rewrite Hold, H2].
  - intros k Hset Hk Hkd Hks. rewrite Hsame, Hplain by done.
    destruct (values m !! k) as [v|] eqn:Hv;
      [by rewrite (getattr_Some _ _ _ Hv)|].
    exfalso. destruct (decide (k ∈ fname <$> MatchCreate_fields)) as [Hin | Hn].
    + apply list_elem_of_fmap_1 in Hin as (f & -> & Hf).
      destruct (MatchCreate_lookup _ _ Hm f Hf) as (_ & [? ?] & _). congruence.
    + by destruct (MatchCreate_dom _ _ Hm k Hn).
  - intros k Hset Hk. rewrite Hsame, Hlists by done.
    destruct (MatchCreate_list _ _ k Hm Hk) as [Hv | [l Hv]];
      by rewrite (getattr_Some _ _ _ Hv), Hv.
  - done.
Qed.

(** ** Creation *)

Lemma create_match_unfold clock m db :
  create_match clock m db =
  match value_lt (getattr (values m) "date") (minus_minutes (datetime_now clock) 5) with
  | Ok false =>
      if tournament_found m db then
        match new_Match m with
        | Ok r =>
            (guard_500 (MatchPydantic (<["id" := VInt (next_id (match_table db))]> r)),
             inserted db r)
        | Raise _ => (Raise (HTTPException 500), db)
        end
      else (Raise (HTTPException 500), db)
  | _ => (Raise (HTTPException 500), db)
  end.
Proof.
  unfold create_match, try_except_500, bind, lift, raise, ret, tournament_found,
    session_get_Tournament, session_insert_Match, inserted, guard_500.
  destruct (value_lt _ _) as [[]|]; [done| |done].
  case_bool_decide.
  - destruct (table_get _ _) as [t|].
    + rewrite bool_decide_eq_true_2 by eauto.
      destruct (new_Match m) as [r|]; [|done]. cbv beta iota zeta.
      by destruct (MatchPydantic _).
    + rewrite bool_decide_eq_false_2 by (by intros [? ?]). done.
  - destruct (new_Match m) as [r|]; [|done]. cbv beta iota zeta.
    by destruct (MatchPydantic _).
Qed.

Lemma ENCODED_FIELDS_list k :
  k ∈ LIST_FIELDS → k ∈ ENCODED_FIELDS ∧ k ≠ "date" ∧ k ≠ "start_time" ∧ k ≠ "id".
Proof.
  intros Hk. unfold LIST_FIELDS in Hk.
  repeat (apply elem_of_cons in Hk as [-> | Hk]); [..|by apply elem_of_nil in Hk];
    (split; [by apply (bool_decide_unpack _); vm_compute | done]).
Qed.

(** The row [create_match] builds from a validated request. *)
Lemma new_Match_ok body m :
  MatchCreate body = Ok m →
  ∃ r d, new_Match m = Ok r ∧
    values m !! "date" = Some (VDatetime d) ∧
    r !! "date" = Some (VIso d) ∧
    r !! "start_time" =
      Some (match values m !! "start_time" with
            | Some (VDatetime d') => VIso d'
            | _ => VNone
            end) ∧
    (∀ k, k ∈ LIST_FIELDS → r !! k = Some (encode_cell (getattr (values m) k))) ∧
    (∀ k, k ∉ ENCODED_FIELDS →
          r !! k = match values m !! k with
                   | Some v => Some v
                   | None => Match_defaults !! k
                   end).
Proof.
  intros Hm.
  destruct (MatchCreate_date _ _ Hm) as (d & Hdate & _).
  assert (Hl : ∀ k, k ∈ LIST_FIELDS →
            dumps_if (getattr (values m) k) = Ok (encode_cell (getattr (values m) k))).
  { intros k Hk. apply dumps_if_list.
    destruct (MatchCreate_list _ _ k Hm Hk) as [Hv | [l Hv]];
      rewrite (getattr_Some _ _ _ Hv); unfold list_or_None; eauto. }
  set (st := match values m !! "start_time" with
             | Some (VDatetime d') => VIso d'
             | _ => VNone
             end).
  assert (Hst : (if truthy (getattr (values m) "start_time")
                 then isoformat (getattr (values m) "start_time")
                 else Ok VNone) = Ok st).
  { unfold st. destruct (MatchCreate_start_time _ _ Hm) as [Hv | [d' Hv]];
      by rewrite (getattr_Some _ _ _ Hv), Hv. }
  eexists _, d. split.
  - unfold new_Match. rewrite (getattr_Some _ _ _ Hdate). cbn [isoformat rbind].
    rewrite Hst. cbn [rbind].
    rewrite !Hl by (unfold LIST_FIELDS; set_solver). cbn [rbind]. reflexivity.
  - split; [done|]. unfold Match. split_and!.
    + by rewrite lookup_union_l', lookup_insert_eq by (rewrite lookup_insert_eq; eauto).
    + rewrite lookup_union_l'; rewrite lookup_insert_ne, lookup_insert_eq by done; eauto.
    + intros k Hk. unfold LIST_FIELDS in Hk.
      repeat (apply elem_of_cons in Hk as [-> | Hk]); [..|by apply elem_of_nil in Hk].
      all: rewrite lookup_union_l';
        rewrite ?lookup_insert_ne by done; rewrite lookup_insert_eq; eauto.
    + intros k Hk. rewrite lookup_union.
      assert (Hne : k ≠ "date" ∧ k ≠ "start_time" ∧ k ≠ "goalScorers1" ∧
                    k ≠ "goalScorers2" ∧ k ≠ "yellowCardPlayers1" ∧
                    k ≠ "yellowCardPlayers2" ∧ k ≠ "redCardPlayers1" ∧
                    k ≠ "redCardPlayers2").
      { unfold ENCODED_FIELDS in Hk. set_solver. }
      destruct Hne as (? & ? & ? & ? & ? & ? & ? & ?).
      rewrite !lookup_insert_ne by done.
      rewrite dict_lookup, bool_decide_eq_true_2 by done.
      destruct (values m !! k), (Match_defaults !! k); done.
Qed.

Lemma MatchPydantic_eq data : MatchPydantic data = validate_model MatchPydantic_fields data.
Proof. reflexivity. Qed.

Lemma MatchCreate_member body m f :
  MatchCreate body = Ok m → f ∈ MatchCreate_fields →
  ∃ v, values m !! fname f = Some v ∧ field_ok f v.
Proof.
  intros Hm Hf. rewrite MatchCreate_eq in Hm.
  destruct (validated_field MatchCreate_fields body m f MatchCreate_fields_NoDup
              MatchCreate_defaults_ok Hm Hf) as (v & Hv & Hok & _).
  eauto.
Qed.

(** A field that [create_match] copies as it is validates again in the
    response. *)
Lemma plain_field_validates body m (r : gmap string value) f n :
  MatchCreate body = Ok m → f ∈ MatchCreate_fields →
  fname f ≠ "id" →
  r !! fname f = match values m !! fname f with
                 | Some v => Some v
                 | None => Match_defaults !! fname f
                 end →
  is_Some (match <["id" := n]> r !! fname f with
           | Some v => validate_value f v
           | None => fdefault f
           end).
Proof.
  intros Hm Hf Hid Hr.
  destruct (MatchCreate_member _ _ _ Hm Hf) as (v & Hv & Hok).
  rewrite lookup_insert_ne by done. rewrite Hr, Hv.
  rewrite validate_value_idem by done. eauto.
Qed.

Lemma value_lt_recent clock d :
  is_Some (utcoffset d) → (clock - 300000000 ≤ timestamp d)%Z →
  value_lt (VDatetime d) (minus_minutes (datetime_now clock) 5) = Ok false.
Proof.
  intros [o Ho] Hle. unfold value_lt, datetime_lt. rewrite Ho. cbn.
  f_equal. apply Z.ltb_ge. lia.
Qed.

Lemma falsy_list_cell body m k :
  MatchCreate body = Ok m → k ∈ LIST_FIELDS →
  truthy (getattr (values m) k) = false →
  encode_cell (getattr (values m) k) = VNone.
Proof.
  intros Hm Hk Hf.
  destruct (MatchCreate_list _ _ k Hm Hk) as [Hv | [l Hv]];
    rewrite (getattr_Some _ _ _ Hv) in *; [done|].
  by destruct l.
Qed.

Lemma created_row_validates body m r n :
  MatchCreate body = Ok m →
  (∃ d, r !! "date" = Some (VIso d)) →
  (r !! "start_time" = Some VNone ∨ ∃ d, r !! "start_time" = Some (VIso d)) →
  (∀ k, k ∈ LIST_FIELDS → r !! k = Some VNone) →
  (∀ k, k ∉ ENCODED_FIELDS →
        r !! k = match values m !! k with
                 | Some v => Some v
                 | None => Match_defaults !! k
                 end) →
  ∃ resp, MatchPydantic (<["id" := VInt n]> r) = Ok resp.
Proof.
  intros Hm [d Hdate] Hst Hlists Hplain.
  rewrite MatchPydantic_eq. apply validate_model_success.
  assert (Hlist : ∀ k, k ∈ LIST_FIELDS →
            <["id" := VInt n]> r !! k = Some VNone).
  { intros k Hk. destruct (ENCODED_FIELDS_list k Hk) as (_ & _ & _ & Hid).
    rewrite lookup_insert_ne by done. by apply Hlists. }
  unfold MatchPydantic_fields, MatchCreate_fields. cbn [app].
  repeat (apply Forall_cons; split); [..|apply Forall_nil_2].
  all: try (apply (plain_field_validates body m r _ (VInt n) Hm);
            [ apply (bool_decide_unpack _); by vm_compute
            | done
            | apply Hplain; apply (bool_decide_unpack _); by vm_compute ]).
  all: cbn [fname].
  all: try (rewrite Hlist by (apply (bool_decide_unpack _); by vm_compute);
            cbn; eauto).
  - rewrite lookup_insert_ne, Hdate by done. cbn. eauto.
  - rewrite lookup_insert_ne by done.
    destruct Hst as [-> | [d' ->]]; cbn; eauto.
  - rewrite lookup_insert_eq. cbn. eauto.
Qed.

Lemma MatchPydantic_lookup data resp :
  MatchPydantic data = Ok resp →
  ∀ f, f ∈ MatchPydantic_fields →
    values resp !! fname f =
      match data !! fname f with
      | Some v => validate_value f v
      | None => fdefault f
      end.
Proof.
  intros Hm f Hf. rewrite MatchPydantic_eq in Hm.
  apply (validate_model_lookup MatchPydantic_fields data resp
           MatchPydantic_fields_NoDup Hm f Hf).
Qed.

Lemma MatchPydantic_list_field k :
  k ∈ LIST_FIELDS → Field k TListStr (Some VNone) ∈ MatchPydantic_fields.
Proof.
  intros Hk. unfold LIST_FIELDS in Hk.
  repeat (apply elem_of_cons in Hk as [-> | Hk]); [..|by apply elem_of_nil in Hk];
    apply (bool_decide_unpack _); by vm_compute.
Qed.

(** C1 (amended) — A validated creation payload with a timezone-aware
    timestamp not older than five minutes, whose tournament_id is absent or
    resolves, and whose six list fields are all absent, null or empty, is
    created: the handler answers with a record and has inserted exactly one
    row under the next id; every list field of the record and of the row is
    null (an empty input list is normalized to null). *)
Theorem create_match_without_lists clock body m db d :
  MatchCreate body = Ok m →
  getattr (values m) "date" = VDatetime d → is_Some (utcoffset d) →
  (clock - 300000000 ≤ timestamp d)%Z →
  tournament_found m db = true →
  (∀ k, k ∈ LIST_FIELDS → truthy (getattr (values m) k) = false) →
  ∃ resp r,
    create_match clock m db
      = (Ok resp, Database (match_table db ++ [r]) (tournament_table db))
    ∧ getattr (values resp) "id" = VInt (next_id (match_table db))
    ∧ getattr r "id" = VInt (next_id (match_table db))
    ∧ ∀ k, k ∈ LIST_FIELDS →
        getattr (values resp) k = VNone ∧ getattr r k = VNone.
Proof.
  intros Hm Hdate Haware Hrecent Htour Hfalsy.
  destruct (new_Match_ok body m Hm) as (r & d' & Hnew & _ & Hd & Hst & Hlists & Hplain).
  assert (Hnone : ∀ k, k ∈ LIST_FIELDS → r !! k = Some VNone).
  { intros k Hk. rewrite (Hlists k Hk). f_equal.
    apply (falsy_list_cell body m k Hm Hk). by apply Hfalsy. }
  set (n := next_id (match_table db)).
  destruct (created_row_validates body m r n Hm) as [resp Hresp]; eauto.
  { destruct (values m !! "start_time") as [[]|]; eauto. }
  exists resp, (<["id" := VInt n]> r).
  rewrite create_match_unfold, Hdate, (value_lt_recent _ _ Haware Hrecent), Htour, Hnew.
  fold n. rewrite Hresp. unfold inserted. fold n. cbn [guard_500].
  split_and!; [done | | | ].
  - apply getattr_Some.
    assert (Hf : Field "id" TInt (Some VNone) ∈ MatchPydantic_fields)
      by (apply (bool_decide_unpack _); by vm_compute).
    pose proof (MatchPydantic_lookup _ _ Hresp _ Hf) as Hid.
    cbn [fname] in Hid. by rewrite Hid, lookup_insert_eq.
  - apply getattr_Some. by rewrite lookup_insert_eq.
  - intros k Hk.
    destruct (ENCODED_FIELDS_list k Hk) as (_ & _ & _ & Hid).
    assert (Hrow : <["id" := VInt n]> r !! k = Some VNone)
      by (rewrite lookup_insert_ne by done; by apply Hnone).
    split; apply getattr_Some; [|done].
    pose proof (MatchPydantic_lookup _ _ Hresp _ (MatchPydantic_list_field k Hk))
      as Hl.
    cbn [fname] in Hl. by rewrite Hl, Hrow.
Qed.

(** ** The stored list columns *)

Lemma encode_cell_list_cell v : list_cell (encode_cell v).
Proof.
  unfold list_cell. destruct v as [| | |[|x l]| |]; cbn; eauto.
  right. by exists (x :: l).
Qed.

Lemma dumps_not_empty_array l : l ≠ [] → Json.dumps l ≠ str "[]".
Proof.
  intros Hl. destruct l as [|x l]; [done|].
  unfold dumps. destruct (join_items_head x l) as [t ->]. by cbn.
Qed.

Lemma list_cell_not_empty_array v : list_cell v → v ≠ VStr (str "[]").
Proof.
  intros [-> | (l & Hl & ->)]; [done|].
  intros H. apply (dumps_not_empty_array l Hl). congruence.
Qed.

Lemma create_match_db clock body m db :
  MatchCreate body = Ok m →
  (create_match clock m db).2 = db ∨
  ∃ r, new_Match m = Ok r ∧ (create_match clock m db).2 = inserted db r.
Proof.
  intros Hm. rewrite create_match_unfold.
  destruct (value_lt _ _) as [[]|]; try (by left).
  destruct (tournament_found m db); [|by left].
  destruct (new_Match m) as [r|]; [|by left].
  right. by exists r.
Qed.

Lemma lists_encoded_create clock body m db :
  MatchCreate body = Ok m → lists_encoded db →
  lists_encoded (create_match clock m db).2.
Proof.
  intros Hm Hdb.
  destruct (create_match_db clock body m db Hm) as [-> | (r & Hr & ->)]; [done|].
  intros r0 k Hr0 Hk. unfold inserted in Hr0. cbn [match_table] in Hr0.
  apply elem_of_app in Hr0 as [Hold | Hnew]; [by apply Hdb|].
  apply list_elem_of_singleton in Hnew as ->.
  destruct (new_Match_ok body m Hm) as (r' & d & Hnew & _ & _ & _ & Hlists & _).
  rewrite Hr in Hnew. injection Hnew as <-.
  destruct (ENCODED_FIELDS_list k Hk) as (_ & _ & _ & Hid).
  rewrite (getattr_Some _ k (encode_cell (getattr (values m) k))).
  - apply encode_cell_list_cell.
  - rewrite lookup_insert_ne by done. by apply Hlists.
Qed.

Lemma lists_encoded_update clock match_id body m db :
  MatchCreate body = Ok m → lists_encoded db →
  lists_encoded (update_match clock match_id m db).2.
Proof.
  intros Hm Hdb.
  destruct (table_get (match_table db) (VInt match_id)) as [r|] eqn:Hget.
  - destruct (updated_data_ok clock body m r Hm)
      as (ud & Hud & Hnot & _ & _ & Hlists & _).
    rewrite (update_match_found _ _ _ _ _ _ Hget Hud). cbn [snd].
    intros r0 k Hr0 Hk. cbn [match_table] in Hr0.
    apply list_elem_of_fmap_1 in Hr0 as (r1 & -> & Hr1).
    destruct (has_id (VInt match_id) r1); [|by apply Hdb].
    rewrite getattr_union.
    destruct (ENCODED_FIELDS_list k Hk) as (_ & _ & Hst & _).
    destruct (decide (k ∈ fields_set m)) as [Hin | Hout].
    + rewrite (Hlists k Hk Hin).
      destruct (values m !! k); cbn.
      * apply encode_cell_list_cell.
      * apply Hdb; [|done]. by apply table_get_Some in Hget as [? _].
    + rewrite (Hnot k Hout Hst).
      apply Hdb; [|done]. by apply table_get_Some in Hget as [? _].
  - by rewrite update_match_missing.
Qed.

(** C9 — In every database the two writing handlers can produce from a
    database without matches, each of the six list columns of each stored
    match is null or the JSON text of a non-empty list of strings; in
    particular it is never the text of the empty array. *)
Theorem stored_lists_null_or_json db r k :
  reachable db → r ∈ match_table db → k ∈ LIST_FIELDS →
  list_cell (getattr r k) ∧ getattr r k ≠ VStr (str "[]").
Proof.
  intros Hreach Hr Hk.
  assert (Hinv : lists_encoded db).
  { clear r k Hr Hk. induction Hreach as [ts | db clock body m _ IH Hm
                                            | db clock match_id body m _ IH Hm].
    - intros r k Hr. by apply elem_of_nil in Hr.
    - by apply (lists_encoded_create clock body).
    - by apply (lists_encoded_update clock match_id body). }
  split; [by apply Hinv|]. apply list_cell_not_empty_array. by apply Hinv.
Qed.

(** ** Listing *)

(** C8 — Listing the matches of a tournament looks only at the tournament_id
    column of the stored matches: when no stored match carries the id, the
    answer is the empty sequence and the database is untouched, whether or
    not a tournament with that id exists. *)
Theorem get_tournament_matches_none tournament_id db :
  Forall (λ r, r !! "tournament_id" ≠ Some (VInt tournament_id)) (match_table db) →
  get_tournament_matches tournament_id db = (Ok [], db).
Proof.
  intros Hnone.
  unfold get_tournament_matches, try_except_500, bind, lift,
    select_Match_where_tournament_id.
  assert (Hfilter : List.filter
            (λ r, bool_decide (r !! "tournament_id" = Some (VInt tournament_id)))
            (match_table db) = []).
  { induction Hnone as [|r tbl Hr _ IH]; [done|].
    cbn [List.filter]. by rewrite bool_decide_eq_false_2. }
  by rewrite Hfilter.
Qed.

(** ** The list codec *)

(** C7 — The codec of a list field, [json.dumps(x) if x else None] followed
    by [json.loads(s) if s else None]: a non-empty list of well-formed
    strings comes back as it is, null comes back as null, the empty list
    comes back as null, and encoding null raises nothing and gives null. *)
Theorem list_codec_round_trip xs :
  Forall (λ s, well_formed s = true) xs →
  (xs ≠ [] → (s <~ dumps_if (VList xs) ;; loads_if s) = Ok (VList xs))
  ∧ (s <~ dumps_if VNone ;; loads_if s) = Ok VNone
  ∧ (s <~ dumps_if (VList []) ;; loads_if s) = Ok VNone
  ∧ dumps_if VNone = Ok VNone.
Proof.
  intros Hwf. split_and!; try reflexivity.
  intros Hne. destruct xs as [|x xs]; [done|].
  rewrite dumps_if_list by (right; eauto). cbn [encode_cell rbind].
  unfold loads_if.
  assert (Htruthy : truthy (VStr (Json.dumps (x :: xs))) = true) by done.
  rewrite Htruthy. by rewrite (loads_dumps _ Hwf).
Qed.

(** ** What the handlers answer on their error paths *)

Lemma validate_model_rejects fs data f v :
  f ∈ fs → data !! fname f = Some v → validate_value f v = None →
  validate_model fs data = Raise ValidationError.
Proof.
  intros Hf Hv Hbad. induction fs as [|g fs IH]; [by apply elem_of_nil in Hf|].
  cbn [validate_model].
  destruct (decide (f = g)) as [<- | Hne].
  - by rewrite Hv, Hbad.
  - apply elem_of_cons in Hf as [-> | Hf]; [done|]. rewrite (IH Hf).
    destruct (data !! fname g) as [w|].
    + by destruct (validate_value g w).
    + by destruct (fdefault g).
Qed.

Lemma value_lt_old clock d :
  is_Some (utcoffset d) → (timestamp d < clock - 300000000)%Z →
  value_lt (VDatetime d) (minus_minutes (datetime_now clock) 5) = Ok true.
Proof.
  intros [o Ho] Hlt. unfold value_lt, datetime_lt. rewrite Ho. cbn.
  f_equal. apply Z.ltb_lt. lia.
Qed.

Lemma value_lt_naive clock d :
  utcoffset d = None →
  value_lt (VDatetime d) (minus_minutes (datetime_now clock) 5) = Raise TypeError.
Proof. intros Ho. unfold value_lt, datetime_lt. by rewrite Ho. Qed.

(** X2 — A validated creation request whose timestamp is timezone-aware and
    older than five minutes at the clock reading is answered 500 (the 400 the
    handler raises is caught by its own except clause), and the database is
    left as it was. *)
Theorem create_match_backdated clock body m db d :
  MatchCreate body = Ok m →
  getattr (values m) "date" = VDatetime d → is_Some (utcoffset d) →
  (timestamp d < clock - 300000000)%Z →
  create_match clock m db = (Raise (HTTPException 500), db).
Proof.
  intros Hm Hdate Haware Hold.
  by rewrite create_match_unfold, Hdate, (value_lt_old _ _ Haware Hold).
Qed.

(** X3 — A validated creation request whose timestamp carries no timezone
    is answered 500 whatever the clock reads: comparing it with the aware
    buffer time raises a TypeError. The database is left as it was. *)
Theorem create_match_naive_date clock body m db d :
  MatchCreate body = Ok m →
  getattr (values m) "date" = VDatetime d → utcoffset d = None →
  create_match clock m db = (Raise (HTTPException 500), db).
Proof.
  intros Hm Hdate Ho.
  by rewrite create_match_unfold, Hdate, (value_lt_naive _ _ Ho).
Qed.

(** X4 — A validated creation request whose tournament_id is not null and
    is not the id of a stored tournament is answered 500, whatever its
    timestamp, and the database is left as it was. *)
Theorem create_match_unknown_tournament clock body m db :
  MatchCreate body = Ok m → tournament_found m db = false →
  create_match clock m db = (Raise (HTTPException 500), db).
Proof.
  intros Hm Ht. rewrite create_match_unfold, Ht.
  by destruct (value_lt _ _) as [[]|].
Qed.

(** X1 — A validated creation request that passes both checks and carries a
    non-empty list in one of the six list fields is answered 500 after its
    row was committed: the row is in the database, with the list stored as
    JSON text, but the response is built without decoding that text. *)
Theorem create_match_with_players clock body m db d k :
  MatchCreate body = Ok m →
  getattr (values m) "date" = VDatetime d → is_Some (utcoffset d) →
  (clock - 300000000 ≤ timestamp d)%Z →
  tournament_found m db = true →
  k ∈ LIST_FIELDS → truthy (getattr (values m) k) = true →
  ∃ r, new_Match m = Ok r
       ∧ create_match clock m db = (Raise (HTTPException 500), inserted db r)
       ∧ getattr r k = encode_cell (getattr (values m) k).
Proof.
  intros Hm Hdate Haware Hrecent Htour Hk Htruthy.
  destruct (new_Match_ok body m Hm) as (r & d' & Hnew & _ & _ & _ & Hlists & _).
  exists r. split; [done|].
  rewrite create_match_unfold, Hdate, (value_lt_recent _ _ Haware Hrecent), Htour, Hnew.
  destruct (ENCODED_FIELDS_list k Hk) as (_ & _ & _ & Hid).
  split; [|apply getattr_Some; by apply Hlists].
  rewrite MatchPydantic_eq.
  rewrite (validate_model_rejects _ _ _ (encode_cell (getattr (values m) k))
             (MatchPydantic_list_field k Hk)); [done | |].
  - cbn [fname]. rewrite lookup_insert_ne by done. by apply Hlists.
  - destruct (MatchCreate_list _ _ k Hm Hk) as [Hv | [l Hv]];
      rewrite (getattr_Some _ _ _ Hv) in *; [done|].
    by destruct l.
Qed.

(** X6 — A body that lacks one of the fields declared without default
    (team1, team2, date, location, status, score1, score2) is rejected at
    the boundary of both POST /matches/ and PUT /matches/{id}: the answer is
    422 and the handler does not run, so the database is left as it was. *)
Theorem missing_required_field_rejected clock match_id body db f :
  f ∈ MatchCreate_fields → fdefault f = None → body !! fname f = None →
  post_matches clock body db = (Raise RequestValidationError, db)
  ∧ put_matches clock match_id body db = (Raise RequestValidationError, db)
  ∧ status_code (post_matches clock body db).1 = 422%Z.
Proof.
  intros Hf Hreq Hmiss. unfold put_matches, post_matches.
  destruct (MatchCreate body) as [m|] eqn:Hm; [|done].
  destruct (MatchCreate_required body m f Hm Hf Hreq) as [v Hv]. congruence.
Qed.

(** ** The claims at concrete requests *)

(** C1 — counterexample: a creation payload at kickoff time whose
    goalScorers1 is the empty list is accepted, and the record that comes
    back has goalScorers1 null, not the empty list that was sent. *)
Lemma create_match_empty_list_comes_back_null :
  let body := <["goalScorers1" := VList []]> sample_body in
  getattr (values (request body)) "goalScorers1" = VList []
  ∧ response_attr (create_match (timestamp kickoff) (request body) empty_db).1
      "goalScorers1" = Ok VNone.
Proof. vm_compute. done. Qed.

(** C2 — evaluation: a payload dated ten minutes before the clock reading is
    answered 500, not 400; nothing is stored. *)
Theorem backdated_payload_answers_500 :
  post_matches (timestamp kickoff + 600000000) sample_body empty_db
  = (Raise (HTTPException 500), empty_db).
Proof. vm_compute. done. Qed.

(** C3 — evaluation: an update of match 1 in a database without matches is
    answered 500, not 404; nothing is stored. *)
Theorem unknown_match_answers_500 :
  put_matches (timestamp kickoff) 1 sample_body empty_db
  = (Raise (HTTPException 500), empty_db).
Proof. vm_compute. done. Qed.

(** C4 — evaluation: a creation payload with tournament_id 7 in a database
    without tournaments is answered 500, not 404; nothing is stored. *)
Theorem unknown_tournament_answers_500 :
  post_matches (timestamp kickoff) (<["tournament_id" := VInt 7]> sample_body) empty_db
  = (Raise (HTTPException 500), empty_db).
Proof. vm_compute. done. Qed.

(** C6 — counterexample: match 1 exists, and the update body that supplies
    only score1 = 3 is rejected before the handler runs; the database is
    unchanged. *)
Lemma put_matches_score_only_rejected :
  stored one_match_db 1 "score1" = Some (VInt 0)
  ∧ put_matches (timestamp kickoff) 1 {["score1" := VInt 3]} one_match_db
    = (Raise RequestValidationError, one_match_db).
Proof. split; vm_compute; reflexivity. Qed.

(** ** Instances *)

Lemma create_match_without_lists_witness :
  ∃ resp r,
    create_match (timestamp kickoff) (request sample_body) empty_db
      = (Ok resp, Database (match_table empty_db ++ [r]) (tournament_table empty_db))
    ∧ getattr (values resp) "id" = VInt (next_id (match_table empty_db))
    ∧ getattr r "id" = VInt (next_id (match_table empty_db))
    ∧ ∀ k, k ∈ LIST_FIELDS →
        getattr (values resp) k = VNone ∧ getattr r k = VNone.
Proof.
  apply (create_match_without_lists (timestamp kickoff) sample_body
           (request sample_body) empty_db kickoff).
  - vm_compute. reflexivity.
  - vm_compute. reflexivity.
  - exists 0%Z. reflexivity.
  - vm_compute. discriminate.
  - vm_compute. reflexivity.
  - intros k Hk. unfold LIST_FIELDS in Hk.
    repeat (apply elem_of_cons in Hk as [-> | Hk]); [..|by apply elem_of_nil in Hk];
      vm_compute; reflexivity.
Defined.

Lemma status_stamps_start_time_once_witness :
  stored started_db 1 "start_time"
    = Some (VIso (datetime_now (timestamp kickoff + 300000000)))
  ∧ stored (update_match (timestamp kickoff + 900000000) 1 (request started_body)
              started_db).2 1 "start_time"
    = Some (VIso (datetime_now (timestamp kickoff + 300000000))).
Proof.
  destruct (status_stamps_start_time_once
              (timestamp kickoff + 300000000) (timestamp kickoff + 900000000) 1
              started_body (request started_body)
              started_body (request started_body) one_match_db)
    as [Hstamp _].
  - vm_compute. reflexivity.
  - vm_compute. reflexivity.
  - apply (bool_decide_unpack _). vm_compute. reflexivity.
  - destruct Hstamp as [Hfirst Hsecond].
    + vm_compute. reflexivity.
    + vm_compute. reflexivity.
    + vm_compute. reflexivity.
    + split; [exact Hfirst|]. apply Hsecond; vm_compute; reflexivity.
Defined.

Lemma start_time_never_reset_witness :
  ∃ v', stored (update_match (timestamp kickoff + 900000000) 1
                  (request sample_body) started_db).2 1 "start_time" = Some v'
        ∧ v' ≠ VNone
        ∧ (getattr (values (request sample_body)) "start_time" = VNone →
           v' = VIso (datetime_now (timestamp kickoff + 300000000)))
        ∧ (v' = VIso (datetime_now (timestamp kickoff + 300000000))
           ∨ ∃ d, getattr (values (request sample_body)) "start_time" = VDatetime d
                  ∧ v' = VIso d).
Proof.
  apply (start_time_never_reset (timestamp kickoff + 900000000) 1 sample_body
           (request sample_body) started_db 1
           (VIso (datetime_now (timestamp kickoff + 300000000)))).
  - vm_compute. reflexivity.
  - vm_compute. reflexivity.
  - discriminate.
Defined.

Lemma update_match_applies_supplied_fields_witness :
  let db' := (update_match (timestamp kickoff + 300000000) 1 (request started_body)
                one_match_db).2 in
  stored db' 1 "duration" = stored one_match_db 1 "duration"
  ∧ stored db' 1 "status" = Some (VStr IN_PROGRESS).
Proof.
  destruct (update_match_applies_supplied_fields
              (timestamp kickoff + 300000000) 1 started_body (request started_body)
              one_match_db)
    as (_ & Hkeep & _ & Hplain & _).
  - vm_compute. reflexivity.
  - apply (bool_decide_unpack _). vm_compute. reflexivity.
  - split.
    + apply Hkeep; [vm_compute; reflexivity | discriminate].
    + rewrite Hplain.
      * vm_compute. reflexivity.
      * apply (bool_decide_unpack _). vm_compute. reflexivity.
      * apply (bool_decide_unpack _). vm_compute. reflexivity.
      * discriminate.
      * discriminate.
Defined.

Lemma list_codec_round_trip_witness :
  (s <~ dumps_if (VList [str "Alice"; str "Bob"]) ;; loads_if s)
  = Ok (VList [str "Alice"; str "Bob"]).
Proof.
  apply (list_codec_round_trip [str "Alice"; str "Bob"]).
  - repeat constructor.
  - discriminate.
Defined.

Lemma get_tournament_matches_none_witness :
  get_tournament_matches 5 one_match_db = (Ok [], one_match_db).
Proof.
  apply (get_tournament_matches_none 5 one_match_db).
  apply (bool_decide_unpack _). vm_compute. reflexivity.
Defined.

Lemma stored_lists_null_or_json_witness :
  list_cell (getattr (stored_row players_db 1) "goalScorers1")
  ∧ getattr (stored_row players_db 1) "goalScorers1" ≠ VStr (str "[]").
Proof.
  apply (stored_lists_null_or_json players_db).
  - apply (reachable_create empty_db (timestamp kickoff) players_body
             (request players_body)).
    + apply reachable_init.
    + vm_compute. reflexivity.
  - apply (bool_decide_unpack _). vm_compute. reflexivity.
  - apply (bool_decide_unpack _). vm_compute. reflexivity.
Defined.

(** ** More on the update handler *)

(** X5 — An update that addresses an id no stored match has is answered 500
    (the 404 the handler raises is caught by its own except clause),
    whatever the request, and the database is left as it was. *)
Theorem update_match_unknown_id clock match_id m db :
  table_get (match_table db) (VInt match_id) = None →
  update_match clock match_id m db = (Raise (HTTPException 500), db)
  ∧ status_code (update_match clock match_id m db).1 = 500%Z.
Proof. intros H. by rewrite update_match_missing. Qed.

(** X7 — Every update of an existing match rewrites the stored date with
    the ISO text of the request's date (date is a required field, so it is
    always supplied), and leaves the id of the row as it was. *)
Theorem update_match_rewrites_date clock match_id body m db d :
  MatchCreate body = Ok m →
  is_Some (table_get (match_table db) (VInt match_id)) →
  getattr (values m) "date" = VDatetime d →
  stored (update_match clock match_id m db).2 match_id "date" = Some (VIso d)
  ∧ stored (update_match clock match_id m db).2 match_id "id" = Some (VInt match_id).
Proof.
  intros Hm [r Hget] Hdate.
  destruct (update_match_stored_attr clock _ _ _ _ _ Hm Hget) as (ud & Hud & Hsame & _).
  destruct (updated_data_ok clock body m r Hm)
    as (ud' & Hud' & Hnot & _ & (d' & Hd' & Hudd) & _).
  rewrite Hud in Hud'. injection Hud' as <-.
  rewrite (getattr_Some _ _ _ Hd') in Hdate. injection Hdate as ->.
  split.
  - by rewrite Hsame, Hudd.
  - rewrite Hsame, Hnot; [| by destruct (MatchCreate_no_id _ _ Hm) | done].
    apply table_get_Some in Hget as [_ Hid]. by rewrite (getattr_Some _ _ _ Hid).
Qed.

(** X8 — An update never adds, removes or renumbers a row: after any
    validated update request, whether its id is known or not, the id column
    of the match table reads as before, row by row. *)
Theorem update_match_keeps_ids clock match_id body m db :
  MatchCreate body = Ok m →
  (λ r : row, r !! "id") <$> match_table (update_match clock match_id m db).2
  = (λ r : row, r !! "id") <$> match_table db.
Proof.
  intros Hm.
  destruct (table_get (match_table db) (VInt match_id)) as [r|] eqn:Hget.
  - destruct (updated_data_ok clock body m r Hm) as (ud & Hud & Hnot & _).
    rewrite (update_match_found _ _ _ _ _ _ Hget Hud). cbn [snd match_table].
    rewrite <- list_fmap_compose. apply list_fmap_ext. intros i r0 _.
    cbn. destruct (has_id (VInt match_id) r0) eqn:Hr0; [|done].
    unfold has_id in Hr0. apply bool_decide_eq_true in Hr0. rewrite Hr0.
    rewrite lookup_union_r by (apply Hnot; [by destruct (MatchCreate_no_id _ _ Hm) | done]).
    by apply table_get_Some in Hget as [_ ?].
  - by rewrite update_match_missing.
Qed.

(** X10 — The two writing match handlers never touch the tournament table,
    on any request and whatever they answer. *)
Theorem match_handlers_keep_tournaments clock match_id m db :
  tournament_table (create_match clock m db).2 = tournament_table db
  ∧ tournament_table (update_match clock match_id m db).2 = tournament_table db.
Proof.
  split.
  - rewrite create_match_unfold.
    destruct (value_lt _ _) as [[]|]; try done.
    destruct (tournament_found m db); [|done].
    by destruct (new_Match m).
  - unfold update_match, try_except_500, bind, session_get_Match, raise, lift,
      session_update_Match.
    destruct (table_get _ _) as [r|]; [|done].
    destruct (updated_data clock m r) as [ud|]; [|done].
    cbv beta iota zeta. by destruct (decoded_MatchPydantic _).
Qed.

(** ** The stored JSON text *)

Lemma hexdigit_printable k : k < 16 → 32 ≤ hexdigit k ∧ hexdigit k ≤ 126.
Proof. intros Hk. unfold hexdigit. destruct (N.ltb_spec k 10); lia. Qed.

Lemma u_escape_printable n : Forall (λ c, 32 ≤ c ∧ c ≤ 126) (u_escape n).
Proof.
  unfold u_escape, hex4.
  repeat (apply Forall_cons; split); [lia | lia | ..| apply Forall_nil_2];
    apply hexdigit_printable; apply N.mod_lt; lia.
Qed.

Lemma escape_char_printable c : Forall (λ c, 32 ≤ c ∧ c ≤ 126) (escape_char c).
Proof.
  unfold escape_char.
  repeat (destruct (_ =? _); [repeat (apply Forall_cons; split); (lia || apply Forall_nil_2)|]).
  destruct ((32 <=? c) && (c <=? 126)) eqn:Hp.
  - apply andb_true_iff in Hp as [H1 H2]. apply N.leb_le in H1, H2.
    apply Forall_cons. split; [lia | apply Forall_nil_2].
  - destruct (c <? 65536); [apply u_escape_printable|].
    apply Forall_app. split; apply u_escape_printable.
Qed.

Lemma encode_basestring_printable s :
  Forall (λ c, 32 ≤ c ∧ c ≤ 126) (encode_basestring_ascii s).
Proof.
  unfold encode_basestring_ascii. apply Forall_cons. split; [lia|].
  apply Forall_app. split; [|apply Forall_cons; split; [lia | apply Forall_nil_2]].
  induction s as [|c s IH]; [apply Forall_nil_2|].
  cbn [escape]. apply Forall_app. split; [apply escape_char_printable | done].
Qed.

(** X9 — The JSON text that is stored for a list of player names is
    printable ASCII (code points 32 to 126), whatever code points the names
    hold: everything else is written as an escape. *)
Theorem dumps_printable_ascii l : Forall (λ c, 32 ≤ c ∧ c ≤ 126) (Json.dumps l).
Proof.
  unfold dumps. apply Forall_cons. split; [lia|].
  apply Forall_app. split; [|apply Forall_cons; split; [lia | apply Forall_nil_2]].
  induction l as [|x l IH]; [apply Forall_nil_2|].
  destruct l as [|y l].
  - apply encode_basestring_printable.
  - change (join_items (x :: y :: l)) with
      (encode_basestring_ascii x ++ 44 :: 32 :: join_items (y :: l)).
    apply Forall_app. split; [apply encode_basestring_printable|].
    repeat (apply Forall_cons; split; [lia|]). done.
Qed.

(** ** Instances of the error paths *)

Lemma create_match_with_players_witness :
  ∃ r, new_Match (request players_body) = Ok r
       ∧ create_match (timestamp kickoff) (request players_body) empty_db
         = (Raise (HTTPException 500), inserted empty_db r)
       ∧ getattr r "goalScorers1"
         = encode_cell (getattr (values (request players_body)) "goalScorers1").
Proof.
  apply (create_match_with_players (timestamp kickoff) players_body
           (request players_body) empty_db kickoff "goalScorers1").
  - vm_compute. reflexivity.
  - vm_compute. reflexivity.
  - exists 0%Z. reflexivity.
  - vm_compute. discriminate.
  - vm_compute. reflexivity.
  - apply (bool_decide_unpack _). vm_compute. reflexivity.
  - vm_compute. reflexivity.
Defined.

Lemma create_match_backdated_witness :
  create_match (timestamp kickoff + 600000000) (request sample_body) empty_db
  = (Raise (HTTPException 500), empty_db).
Proof.
  apply (create_match_backdated (timestamp kickoff + 600000000) sample_body
           (request sample_body) empty_db kickoff).
  - vm_compute. reflexivity.
  - vm_compute. reflexivity.
  - exists 0%Z. reflexivity.
  - vm_compute. reflexivity.
Defined.

Lemma create_match_naive_date_witness :
  create_match (timestamp kickoff) (request naive_body) empty_db
  = (Raise (HTTPException 500), empty_db).
Proof.
  apply (create_match_naive_date (timestamp kickoff) naive_body
           (request naive_body) empty_db (Datetime 1700000000000000 None)).
  - vm_compute. reflexivity.
  - vm_compute. reflexivity.
  - reflexivity.
Defined.

Lemma create_match_unknown_tournament_witness :
  create_match (timestamp kickoff)
    (request (<["tournament_id" := VInt 7]> sample_body)) empty_db
  = (Raise (HTTPException 500), empty_db).
Proof.
  apply (create_match_unknown_tournament (timestamp kickoff)
           (<["tournament_id" := VInt 7]> sample_body)).
  - vm_compute. reflexivity.
  - vm_compute. reflexivity.
Defined.

Lemma update_match_unknown_id_witness :
  update_match (timestamp kickoff) 2 (request sample_body) one_match_db
    = (Raise (HTTPException 500), one_match_db)
  ∧ status_code (update_match (timestamp kickoff) 2 (request sample_body)
                   one_match_db).1 = 500%Z.
Proof.
  apply (update_match_unknown_id (timestamp kickoff) 2 (request sample_body)
           one_match_db).
  vm_compute. reflexivity.
Defined.

Lemma missing_required_field_rejected_witness :
  post_matches (timestamp kickoff) {["score1" := VInt 3]} empty_db
    = (Raise RequestValidationError, empty_db)
  ∧ put_matches (timestamp kickoff) 1 {["score1" := VInt 3]} empty_db
    = (Raise RequestValidationError, empty_db)
  ∧ status_code (post_matches (timestamp kickoff) {["score1" := VInt 3]} empty_db).1
    = 422%Z.
Proof.
  apply (missing_required_field_rejected (timestamp kickoff) 1
           {["score1" := VInt 3]} empty_db (Field "team1" TStr None)).
  - apply (bool_decide_unpack _). vm_compute. reflexivity.
  - reflexivity.
  - vm_compute. reflexivity.
Defined.

Lemma update_match_rewrites_date_witness :
  stored (update_match (timestamp kickoff + 300000000) 1 (request started_body)
            one_match_db).2 1 "date" = Some (VIso kickoff)
  ∧ stored (update_match (timestamp kickoff + 300000000) 1 (request started_body)
              one_match_db).2 1 "id" = Some (VInt 1).
Proof.
  apply (update_match_rewrites_date (timestamp kickoff + 300000000) 1 started_body
           (request started_body) one_match_db kickoff).
  - vm_compute. reflexivity.
  - apply (bool_decide_unpack _). vm_compute. reflexivity.
  - vm_compute. reflexivity.
Defined.

Lemma update_match_keeps_ids_witness :
  (λ r : row, r !! "id") <$>
    match_table (update_match (timestamp kickoff + 300000000) 1
                   (request started_body) one_match_db).2
  = (λ r : row, r !! "id") <$> match_table one_match_db.
Proof.
  apply (update_match_keeps_ids (timestamp kickoff + 300000000) 1 started_body
           (request started_body) one_match_db).
  vm_compute. reflexivity.
Defined.

(** ** Rows the API can serve *)

Lemma MatchCreate_field_kinds f :
  f ∈ MatchCreate_fields →
  fname f ≠ "id"
  ∧ (fty f = TListStr ↔ fname f ∈ LIST_FIELDS)
  ∧ (fty f = TListStr → fdefault f = Some VNone)
  ∧ (fty f = TDatetime ↔ fname f = "date" ∨ fname f = "start_time")
  ∧ (fname f = "start_time" → fdefault f = Some VNone)
  ∧ (fname f ∈ ENCODED_FIELDS ↔ fty f = TListStr ∨ fty f = TDatetime).
Proof.
  revert f. apply Forall_forall. apply (bool_decide_unpack _). vm_compute. reflexivity.
Qed.

Lemma MatchCreate_list_field k :
  k ∈ LIST_FIELDS → Field k TListStr (Some VNone) ∈ MatchCreate_fields.
Proof.
  intros Hk. unfold LIST_FIELDS in Hk.
  repeat (apply elem_of_cons in Hk as [-> | Hk]); [..| by apply elem_of_nil in Hk];
    apply (bool_decide_unpack _); vm_compute; reflexivity.
Qed.

Lemma forallb_well_formed l :
  forallb well_formed l = true ↔ Forall (λ s, well_formed s = true) l.
Proof.
  induction l as [|x l IH]; cbn [forallb].
  - split; [intros _; apply Forall_nil_2 | done].
  - rewrite andb_true_iff, Forall_cons, IH. done.
Qed.

Lemma loads_if_cell v :
  (v = VNone ∨ ∃ l, l ≠ [] ∧ Forall (λ s, well_formed s = true) l
                    ∧ v = VStr (Json.dumps l)) →
  loads_if v = Ok (decode_cell v)
  ∧ (decode_cell v = VNone ∨ ∃ l, decode_cell v = VList l).
Proof.
  intros [-> | (l & Hl & Hwf & ->)]; [split; [done | by left]|].
  unfold loads_if, decode_cell.
  assert (Htruthy : truthy (VStr (Json.dumps l)) = true) by done.
  rewrite Htruthy, (loads_dumps _ Hwf). split; [done | eauto].
Qed.

Lemma decode_encode_cell v :
  list_or_None v → well_formed_value v = true →
  decode_cell (encode_cell v) = normalized v.
Proof.
  intros [-> | [l ->]] Hwf; [done|].
  destruct l as [|x l]; [done|].
  cbn [encode_cell decode_cell normalized well_formed_value] in *.
  apply forallb_well_formed in Hwf. by rewrite (loads_dumps _ Hwf).
Qed.

Lemma encode_cell_ok f v :
  fty f = TListStr → list_or_None v → well_formed_value v = true →
  cell_ok f (encode_cell v).
Proof.
  intros Hty Hv Hwf. unfold cell_ok. rewrite Hty.
  destruct Hv as [-> | [l ->]]; [by left|].
  destruct l as [|x l]; [by left|].
  right. exists (x :: l). split_and!; [done | | done].
  by apply forallb_well_formed.
Qed.

Lemma plain_value_normalized f v :
  field_ok f v → fty f ≠ TListStr → normalized v = v.
Proof. by destruct v. Qed.

Lemma decoded_MatchPydantic_data r :
  (∀ k, k ∈ LIST_FIELDS → loads_if (getattr r k) = Ok (decode_cell (getattr r k))) →
  ∃ data, decoded_MatchPydantic r = MatchPydantic data
    ∧ ∀ k, data !! k = if bool_decide (k ∈ LIST_FIELDS)
                       then Some (decode_cell (getattr r k)) else r !! k.
Proof.
  intros H. unfold decoded_MatchPydantic.
  rewrite !H by (apply (bool_decide_unpack _); vm_compute; reflexivity).
  cbn [rbind]. eexists. split; [reflexivity|].
  intros k. destruct (decide (k ∈ LIST_FIELDS)) as [Hk | Hk].
  - rewrite (bool_decide_eq_true_2 _ Hk). unfold LIST_FIELDS in Hk.
    repeat (apply elem_of_cons in Hk as [-> | Hk]); [..| by apply elem_of_nil in Hk];
      rewrite ?lookup_insert_ne by done; by rewrite lookup_insert_eq.
  - rewrite (bool_decide_eq_false_2 _ Hk).
    rewrite !lookup_insert_ne; [done|..]; intros <-; apply Hk;
      apply (bool_decide_unpack _); vm_compute; reflexivity.
Qed.

Lemma served_cell (r data : gmap string value) f :
  row_ok r →
  (∀ k, data !! k = if bool_decide (k ∈ LIST_FIELDS)
                    then Some (decode_cell (getattr r k)) else r !! k) →
  f ∈ MatchPydantic_fields →
  match data !! fname f with
  | Some v => validate_value f v
  | None => fdefault f
  end = Some (served (fty f) (getattr r (fname f))).
Proof.
  intros [[n Hid] Hrow] Hdata Hf. rewrite Hdata.
  unfold MatchPydantic_fields in Hf. apply elem_of_app in Hf as [Hf | Hf].
  - destruct (MatchCreate_field_kinds f Hf) as (Hnid & Hlist & Hldef & Hdt & Hst & _).
    destruct (Hrow f Hf) as (v & Hv & Hok).
    rewrite (getattr_Some _ _ _ Hv). unfold cell_ok in Hok.
    destruct f as [k t dflt]. cbn [fname fty fdefault] in *.
    destruct t.
    + rewrite bool_decide_eq_false_2 by (intros H; by apply Hlist in H).
      rewrite Hv. by apply validate_value_idem.
    + rewrite bool_decide_eq_false_2 by (intros H; by apply Hlist in H).
      rewrite Hv. by apply validate_value_idem.
    + rewrite bool_decide_eq_false_2 by (intros H; by apply Hlist in H).
      rewrite Hv. destruct Hok as [[-> [d Hd]] | [d ->]]; [|done].
      cbn [fdefault] in Hd. subst dflt. done.
    + rewrite bool_decide_eq_true_2 by (by apply Hlist).
      rewrite (Hldef eq_refl). cbn [served].
      by destruct (loads_if_cell v Hok) as [_ [-> | [l ->]]].
  - apply list_elem_of_singleton in Hf as ->. cbn [fname fty fdefault].
    rewrite bool_decide_eq_false_2
      by (intros H; by apply (bool_decide_pack _) in H; vm_compute in H).
    by rewrite Hid, (getattr_Some _ _ _ Hid).
Qed.

Lemma decoded_row_ok r :
  row_ok r →
  ∃ resp, decoded_MatchPydantic r = Ok resp
    ∧ ∀ f, f ∈ MatchPydantic_fields →
        values resp !! fname f = Some (served (fty f) (getattr r (fname f))).
Proof.
  intros Hr.
  destruct (decoded_MatchPydantic_data r) as (data & Heq & Hdata).
  { intros k Hk. destruct Hr as [_ Hrow].
    destruct (Hrow _ (MatchCreate_list_field k Hk)) as (v & Hv & Hok).
    cbn [fname] in Hv. rewrite (getattr_Some _ _ _ Hv).
    by apply loads_if_cell. }
  rewrite Heq, MatchPydantic_eq.
  destruct (validate_model_success MatchPydantic_fields data) as [resp Hresp].
  { apply Forall_forall. intros f Hf.
    rewrite (served_cell r data f Hr Hdata Hf). eauto. }
  exists resp. split; [done|]. intros f Hf.
  destruct (validate_model_lookup _ _ _ MatchPydantic_fields_NoDup Hresp f Hf) as [-> _].
  by apply served_cell.
Qed.

Lemma request_list_value body m k :
  MatchCreate body = Ok m → well_formed_request m → k ∈ LIST_FIELDS →
  ∃ v, values m !! k = Some v ∧ list_or_None v ∧ well_formed_value v = true.
Proof.
  intros Hm Hwf Hk.
  destruct (MatchCreate_list body m k Hm Hk) as [Hv | [l Hv]].
  - exists VNone. split_and!; [done | by left | done].
  - exists (VList l). split_and!; [done | right; eauto | exact (Hwf _ _ Hv)].
Qed.

Lemma lookup_union_match (ud r : gmap string value) k :
  (ud ∪ r) !! k = match ud !! k with Some v => Some v | None => r !! k end.
Proof.
  rewrite lookup_union. destruct (ud !! k), (r !! k); done.
Qed.

(** The cell [new_Match] builds for a declared field, and what it is
    served as. *)
Lemma new_row_cells body m r n f :
  MatchCreate body = Ok m → well_formed_request m → new_Match m = Ok r →
  f ∈ MatchCreate_fields →
  ∃ c v, <["id" := VInt n]> r !! fname f = Some c ∧ cell_ok f c
       ∧ values m !! fname f = Some v ∧ served (fty f) c = normalized v.
Proof.
  intros Hm Hwf Hr Hf.
  destruct (new_Match_ok body m Hm)
    as (r' & d & Hr' & Hdate & Hrdate & Hrst & Hrlist & Hrplain).
  assert (r' = r) as -> by congruence.
  destruct (MatchCreate_field_kinds f Hf) as (Hnid & Hlist & Hldef & Hdt & Hst & Henc).
  destruct (MatchCreate_member body m f Hm Hf) as (v & Hv & Hfok).
  rewrite lookup_insert_ne by congruence.
  unfold cell_ok. destruct f as [k t dflt]. cbn [fname fty fdefault] in *.
  destruct t.
  - assert (Hne : k ∉ ENCODED_FIELDS) by (intros H; by apply Henc in H as [?|?]).
    exists v, v. rewrite (Hrplain _ Hne), Hv. split_and!; [done..|].
    symmetry. by apply (plain_value_normalized _ _ Hfok).
  - assert (Hne : k ∉ ENCODED_FIELDS) by (intros H; by apply Henc in H as [?|?]).
    exists v, v. rewrite (Hrplain _ Hne), Hv. split_and!; [done..|].
    symmetry. by apply (plain_value_normalized _ _ Hfok).
  - destruct (proj1 Hdt eq_refl) as [-> | ->].
    + exists (VIso d), (VDatetime d). rewrite Hrdate. split_and!; eauto.
    + rewrite Hrst, Hv. rewrite (Hst eq_refl) in *.
      destruct v; try done.
      * exists VNone, VNone. split_and!; eauto.
      * exists (VIso d0), (VDatetime d0). split_and!; eauto.
  - assert (Hk : k ∈ LIST_FIELDS) by by apply Hlist.
    rewrite (Hrlist _ Hk), (getattr_Some _ _ _ Hv).
    destruct (request_list_value body m k Hm Hwf Hk) as (v' & Hv' & Hlon & Hwfv).
    assert (v' = v) as -> by congruence.
    exists (encode_cell v), v. split_and!; [done | | done |].
    + by apply (encode_cell_ok (Field k TListStr dflt)).
    + by apply decode_encode_cell.
Qed.

Lemma new_row_ok body m r n :
  MatchCreate body = Ok m → well_formed_request m → new_Match m = Ok r →
  row_ok (<["id" := VInt n]> r).
Proof.
  intros Hm Hwf Hr. split.
  - exists n. by rewrite lookup_insert_eq.
  - intros f Hf.
    destruct (new_row_cells body m r n f Hm Hwf Hr Hf) as (c & v & Hc & Hok & _).
    eauto.
Qed.

(** The cell of a declared field after [update_match] set the attributes of
    [updated_data], and what a supplied field is served as. *)
Lemma updated_row_cells clock body m r ud f :
  MatchCreate body = Ok m → well_formed_request m → row_ok r →
  updated_data clock m r = Ok ud → f ∈ MatchCreate_fields →
  ∃ c, (ud ∪ r) !! fname f = Some c ∧ cell_ok f c
     ∧ (fname f ∈ fields_set m → fname f ≠ "start_time" →
        ∃ v, values m !! fname f = Some v ∧ served (fty f) c = normalized v).
Proof.
  intros Hm Hwf [_ Hrow] Hud Hf.
  destruct (updated_data_ok clock body m r Hm)
    as (ud' & Hud' & Hunset & Hudst & (d & Hmdate & Huddate) & Hlists & Hplain).
  assert (ud' = ud) as -> by congruence.
  destruct (MatchCreate_field_kinds f Hf) as (Hnid & Hlist & Hldef & Hdt & Hst & Henc).
  destruct (MatchCreate_member body m f Hm Hf) as (v & Hv & Hfok).
  destruct (Hrow f Hf) as (c0 & Hc0 & Hok0).
  rewrite lookup_union_match.
  unfold cell_ok in *. destruct f as [k t dflt]. cbn [fname fty fdefault] in *.
  assert (Hkeep : k ∉ fields_set m → k ≠ "start_time" →
          ∃ c, match ud !! k with Some v => Some v | None => r !! k end = Some c
               ∧ c = c0).
  { intros H1 H2. rewrite (Hunset _ H1 H2). eauto. }
  destruct t.
  - assert (k ∉ LIST_FIELDS ∧ k ≠ "date" ∧ k ≠ "start_time") as (Hnl & Hnd & Hns).
    { split_and!; intros H;
        [ by apply Hlist in H
        | by pose proof (proj2 Hdt (or_introl H))
        | by pose proof (proj2 Hdt (or_intror H)) ]. }
    destruct (decide (k ∈ fields_set m)) as [Hin | Hout].
    + rewrite (Hplain _ Hin Hnl Hnd Hns), Hv. exists v. split_and!; [done..|].
      intros _ _. exists v. split; [done|].
      symmetry. by apply (plain_value_normalized _ _ Hfok).
    + destruct (Hkeep Hout Hns) as (c & -> & ->). exists c0. split_and!; done.
  - assert (k ∉ LIST_FIELDS ∧ k ≠ "date" ∧ k ≠ "start_time") as (Hnl & Hnd & Hns).
    { split_and!; intros H;
        [ by apply Hlist in H
        | by pose proof (proj2 Hdt (or_introl H))
        | by pose proof (proj2 Hdt (or_intror H)) ]. }
    destruct (decide (k ∈ fields_set m)) as [Hin | Hout].
    + rewrite (Hplain _ Hin Hnl Hnd Hns), Hv. exists v. split_and!; [done..|].
      intros _ _. exists v. split; [done|].
      symmetry. by apply (plain_value_normalized _ _ Hfok).
    + destruct (Hkeep Hout Hns) as (c & -> & ->). exists c0. split_and!; done.
  - destruct (proj1 Hdt eq_refl) as [-> | ->].
    + rewrite Huddate. exists (VIso d). split_and!; eauto.
    + rewrite Hudst.
      destruct (values m !! "start_time") as [[]|]; try destruct (stamp_fires m r);
        first [ rewrite Hc0; exists c0; split_and!; done
              | eexists; split_and!; [reflexivity | eauto | done] ].
  - assert (Hk : k ∈ LIST_FIELDS) by by apply Hlist.
    assert (Hns : k ≠ "start_time").
    { intros H. by pose proof (proj2 Hdt (or_intror H)). }
    destruct (decide (k ∈ fields_set m)) as [Hin | Hout].
    + rewrite (Hlists _ Hk Hin), Hv. cbn [fmap option_fmap option_map].
      destruct (request_list_value body m k Hm Hwf Hk) as (v' & Hv' & Hlon & Hwfv).
      assert (v' = v) as -> by congruence.
      exists (encode_cell v). split_and!; [done | |].
      * by apply (encode_cell_ok (Field k TListStr dflt)).
      * intros _ _. exists v. split; [done|]. by apply decode_encode_cell.
    + destruct (Hkeep Hout Hns) as (c & -> & ->). exists c0. split_and!; done.
Qed.

Lemma updated_row_ok clock body m r ud :
  MatchCreate body = Ok m → well_formed_request m → row_ok r →
  updated_data clock m r = Ok ud → row_ok (ud ∪ r).
Proof.
  intros Hm Hwf Hr Hud. split.
  - destruct Hr as [[n Hid] _]. exists n.
    destruct (updated_data_ok clock body m r Hm) as (ud' & Hud' & Hunset & _).
    assert (ud' = ud) as -> by congruence.
    destruct (MatchCreate_no_id body m Hm) as [_ Hnid].
    by rewrite lookup_union_match, (Hunset _ Hnid).
  - intros f Hf.
    destruct (updated_row_cells clock body m r ud f Hm Hwf Hr Hud Hf)
      as (c & Hc & Hok & _).
    eauto.
Qed.

Lemma rows_ok_create clock body m db :
  MatchCreate body = Ok m → well_formed_request m → rows_ok db →
  rows_ok (create_match clock m db).2.
Proof.
  intros Hm Hwf Hdb.
  destruct (create_match_db clock body m db Hm) as [-> | (r & Hr & ->)]; [done|].
  intros r' Hr'. cbn [inserted match_table] in Hr'.
  apply elem_of_app in Hr' as [Hr' | Hr']; [by apply Hdb|].
  apply list_elem_of_singleton in Hr' as ->.
  by apply (new_row_ok body m).
Qed.

Lemma rows_ok_update clock match_id body m db :
  MatchCreate body = Ok m → well_formed_request m → rows_ok db →
  rows_ok (update_match clock match_id m db).2.
Proof.
  intros Hm Hwf Hdb.
  destruct (table_get (match_table db) (VInt match_id)) as [r|] eqn:Hget.
  - destruct (updated_data_ok clock body m r Hm) as (ud & Hud & _).
    rewrite (update_match_found _ _ _ _ _ _ Hget Hud).
    intros r' Hr'. cbn [snd match_table] in Hr'.
    apply list_elem_of_fmap in Hr' as (r0 & -> & Hr0).
    destruct (has_id (VInt match_id) r0); [|by apply Hdb].
    apply (updated_row_ok clock body m); [done.. | | done].
    apply Hdb. by apply table_get_Some in Hget as [? _].
  - by rewrite (update_match_missing _ _ _ _ Hget).
Qed.

Lemma rows_ok_empty tournaments : rows_ok (Database [] tournaments).
Proof. intros r Hr. by apply elem_of_nil in Hr. Qed.

(** ** Listings *)

Lemma comprehension_Forall2 {A B} (f : A → result B) (P : A → B → Prop) l :
  (∀ a, a ∈ l → ∃ b, f a = Ok b ∧ P a b) →
  ∃ bs, comprehension f l = Ok bs ∧ Forall2 P l bs.
Proof.
  induction l as [|a l IH]; intros H.
  - exists []. split; [done | constructor].
  - destruct (H a) as (b & Hb & HP); [apply elem_of_cons; by left|].
    destruct IH as (bs & Hbs & HPs).
    { intros a' Ha'. apply H. apply elem_of_cons. by right. }
    exists (b :: bs). cbn [comprehension]. rewrite Hb, Hbs. split; [done|].
    by constructor.
Qed.

Lemma comprehension_snoc {A B} (f : A → result B) l a bs b :
  comprehension f l = Ok bs → f a = Ok b →
  comprehension f (l ++ [a]) = Ok (bs ++ [b]).
Proof.
  revert bs. induction l as [|a' l IH]; intros bs Hbs Hb.
  - cbn [comprehension] in Hbs. assert (bs = []) as -> by congruence.
    cbn [app comprehension]. by rewrite Hb.
  - cbn [app comprehension] in *.
    destruct (f a') as [b'|]; [|done]. cbn [rbind] in *.
    destruct (comprehension f l) as [bs'|] eqn:Hl; [|done]. cbn [rbind] in *.
    rewrite (IH bs' eq_refl Hb). cbn [rbind].
    assert (bs = b' :: bs') as -> by congruence. done.
Qed.

Lemma get_matches_unfold db :
  get_matches db =
  (guard_500 (comprehension decoded_MatchPydantic (match_table db)), db).
Proof.
  unfold get_matches, try_except_500, bind, select_Match, lift.
  by destruct (comprehension decoded_MatchPydantic (match_table db)).
Qed.

Lemma get_tournament_matches_unfold tournament_id db :
  get_tournament_matches tournament_id db =
  (guard_500 (comprehension decoded_MatchPydantic
     (List.filter (λ r, bool_decide (r !! "tournament_id" = Some (VInt tournament_id)))
        (match_table db))), db).
Proof.
  unfold get_tournament_matches, try_except_500, bind,
    select_Match_where_tournament_id, lift.
  by destruct (comprehension decoded_MatchPydantic _).
Qed.

Lemma listing_ok tbl :
  (∀ r, r ∈ tbl → row_ok r) →
  ∃ recs, comprehension decoded_MatchPydantic tbl = Ok recs
    ∧ Forall2 (λ r resp, ∀ f, f ∈ MatchPydantic_fields →
                 values resp !! fname f = Some (served (fty f) (getattr r (fname f))))
        tbl recs.
Proof.
  intros Htbl. apply comprehension_Forall2.
  intros r Hr. apply decoded_row_ok. by apply Htbl.
Qed.

Lemma id_field : Field "id" TInt (Some VNone) ∈ MatchPydantic_fields.
Proof. apply (bool_decide_unpack _). vm_compute. reflexivity. Qed.

Lemma tournament_id_field :
  Field "tournament_id" TInt (Some VNone) ∈ MatchPydantic_fields.
Proof. apply (bool_decide_unpack _). vm_compute. reflexivity. Qed.

Lemma one_match_db_eq :
  one_match_db = (create_match (timestamp kickoff) (request sample_body) empty_db).2.
Proof. vm_compute. reflexivity. Qed.

Lemma sample_request_well_formed : well_formed_request (request sample_body).
Proof. apply (bool_decide_unpack _). vm_compute. reflexivity. Qed.

Lemma players_request_well_formed : well_formed_request (request players_body).
Proof. apply (bool_decide_unpack _). vm_compute. reflexivity. Qed.

Lemma sample_request_eq : MatchCreate sample_body = Ok (request sample_body).
Proof. vm_compute. reflexivity. Qed.

Lemma players_request_eq : MatchCreate players_body = Ok (request players_body).
Proof. vm_compute. reflexivity. Qed.

Lemma rows_ok_one_match_db : rows_ok one_match_db.
Proof.
  rewrite one_match_db_eq.
  apply (rows_ok_create _ sample_body);
    [apply sample_request_eq | apply sample_request_well_formed | apply rows_ok_empty].
Qed.

Lemma rows_ok_players_db : rows_ok players_db.
Proof.
  apply (rows_ok_create _ players_body);
    [apply players_request_eq | apply players_request_well_formed | apply rows_ok_empty].
Qed.

(** X11 — The two writing handlers keep the match table servable: when
    every stored row holds, for each declared field, a cell of the stored
    form (timestamps as ISO text, lists as null or the JSON text of a
    non-empty list of well-formed strings, other fields as validated), the
    same is true after [create_match] and after [update_match] ran on a
    validated request whose list strings are well formed, whatever they
    answered. *)
Theorem writers_keep_rows_servable clock match_id body m db :
  MatchCreate body = Ok m → well_formed_request m → rows_ok db →
  rows_ok (create_match clock m db).2
  ∧ rows_ok (update_match clock match_id m db).2.
Proof.
  intros Hm Hwf Hdb. split.
  - by apply (rows_ok_create _ body).
  - by apply (rows_ok_update _ _ body).
Qed.

Lemma writers_keep_rows_servable_witness :
  rows_ok (create_match (timestamp kickoff) (request players_body) one_match_db).2
  ∧ rows_ok (update_match (timestamp kickoff) 1 (request players_body) one_match_db).2.
Proof.
  apply (writers_keep_rows_servable _ _ players_body).
  - vm_compute. reflexivity.
  - apply (bool_decide_unpack _). vm_compute. reflexivity.
  - apply rows_ok_one_match_db.
Defined.

(** X12 — On a servable match table [get_matches] answers 200, leaves the
    database as it is, and returns one record per stored row, in table
    order; each record holds, for every field of [MatchPydantic], the row's
    cell with list columns decoded and timestamps parsed. *)
Theorem get_matches_serves_every_row db :
  rows_ok db →
  ∃ recs, get_matches db = (Ok recs, db)
    ∧ Forall2 (λ r resp, ∀ f, f ∈ MatchPydantic_fields →
                 values resp !! fname f = Some (served (fty f) (getattr r (fname f))))
        (match_table db) recs.
Proof.
  intros Hdb. destruct (listing_ok (match_table db) Hdb) as (recs & Hrecs & HP).
  exists recs. by rewrite get_matches_unfold, Hrecs.
Qed.

Lemma get_matches_serves_every_row_witness :
  ∃ recs, get_matches players_db = (Ok recs, players_db)
    ∧ Forall2 (λ r resp, ∀ f, f ∈ MatchPydantic_fields →
                 values resp !! fname f = Some (served (fty f) (getattr r (fname f))))
        (match_table players_db) recs.
Proof. apply (get_matches_serves_every_row players_db), rows_ok_players_db. Defined.

(** X13 — On a servable match table [get_tournament_matches] answers 200
    with the matches of that tournament and no others: every record
    returned carries the requested [tournament_id], and every stored row
    with that [tournament_id] has a record with its [id]. *)
Theorem get_tournament_matches_selects tournament_id db :
  rows_ok db →
  ∃ recs, get_tournament_matches tournament_id db = (Ok recs, db)
    ∧ Forall (λ resp, values resp !! "tournament_id" = Some (VInt tournament_id)) recs
    ∧ ∀ r, r ∈ match_table db → r !! "tournament_id" = Some (VInt tournament_id) →
        ∃ resp, resp ∈ recs ∧ values resp !! "id" = r !! "id".
Proof.
  intros Hdb. rewrite get_tournament_matches_unfold.
  set (sel := List.filter _ (match_table db)).
  assert (Hsel : ∀ r, r ∈ sel ↔
            r ∈ match_table db ∧ r !! "tournament_id" = Some (VInt tournament_id)).
  { intros r. unfold sel. rewrite !list_elem_of_In, filter_In, bool_decide_eq_true.
    done. }
  destruct (comprehension_Forall2 decoded_MatchPydantic
              (λ r resp, values resp !! "tournament_id" = Some (VInt tournament_id)
                         ∧ values resp !! "id" = r !! "id") sel)
    as (recs & Hrecs & HP).
  { intros r Hr. apply Hsel in Hr as [Hr Htid].
    destruct (decoded_row_ok r (Hdb r Hr)) as (resp & Hresp & Hlook).
    exists resp. split; [done|]. split.
    - pose proof (Hlook _ tournament_id_field) as Hf'. cbn [fname fty served] in Hf'. rewrite Hf'.
      by rewrite (getattr_Some _ _ _ Htid).
    - pose proof (Hlook _ id_field) as Hf'. cbn [fname fty served] in Hf'. rewrite Hf'.
      destruct (Hdb r Hr) as [[n Hid] _]. by rewrite Hid, (getattr_Some _ _ _ Hid). }
  exists recs. rewrite Hrecs. split_and!; [done | |].
  - apply Forall_forall. intros resp Hresp.
    apply list_elem_of_lookup in Hresp as [i Hi].
    by destruct (Forall2_lookup_r _ _ _ _ _ HP Hi) as (r & _ & ? & _).
  - intros r Hr Htid.
    assert (Hr' : r ∈ sel) by by apply Hsel.
    apply list_elem_of_lookup in Hr' as [i Hi].
    destruct (Forall2_lookup_l _ _ _ _ _ HP Hi) as (resp & Hresp & _ & ?).
    exists resp. split; [by eapply list_elem_of_lookup_2 | done].
Qed.

Lemma get_tournament_matches_selects_witness :
  ∃ recs, get_tournament_matches 7 players_db = (Ok recs, players_db)
    ∧ Forall (λ resp, values resp !! "tournament_id" = Some (VInt 7)) recs
    ∧ ∀ r, r ∈ match_table players_db → r !! "tournament_id" = Some (VInt 7) →
        ∃ resp, resp ∈ recs ∧ values resp !! "id" = r !! "id".
Proof. apply (get_tournament_matches_selects 7 players_db), rows_ok_players_db. Defined.

(** X14 — [update_match] on a stored match of a servable table answers 200
    and echoes the request: the record returned has the match's [id], and
    every supplied field other than [start_time] comes back as sent, a list
    after its trip through [json.dumps] and [json.loads] included, except
    that an empty list comes back as null. *)
Theorem update_match_echoes_request clock match_id body m db :
  MatchCreate body = Ok m → well_formed_request m → rows_ok db →
  is_Some (table_get (match_table db) (VInt match_id)) →
  ∃ resp, (update_match clock match_id m db).1 = Ok resp
    ∧ values resp !! "id" = Some (VInt match_id)
    ∧ ∀ f, f ∈ MatchCreate_fields → fname f ∈ fields_set m →
        fname f ≠ "start_time" →
        values resp !! fname f = normalized <$> values m !! fname f.
Proof.
  intros Hm Hwf Hdb [r Hget].
  destruct (updated_data_ok clock body m r Hm) as (ud & Hud & Hunset & _).
  rewrite (update_match_found _ _ _ _ _ _ Hget Hud). cbn [fst].
  pose proof (table_get_Some _ _ _ Hget) as [Hin Hid].
  assert (Hrow : row_ok r) by by apply Hdb.
  destruct (decoded_row_ok (ud ∪ r)) as (resp & Hresp & Hlook).
  { by apply (updated_row_ok clock body m). }
  exists resp. rewrite Hresp. split_and!; [done | |].
  - pose proof (Hlook _ id_field) as Hf'. cbn [fname fty served] in Hf'. rewrite Hf'.
    destruct (MatchCreate_no_id body m Hm) as [_ Hnid].
    by rewrite getattr_union, (Hunset _ Hnid), (getattr_Some _ _ _ Hid).
  - intros f Hf Hsup Hns.
    rewrite (Hlook f) by (apply elem_of_app; by left).
    destruct (updated_row_cells clock body m r ud f Hm Hwf Hrow Hud Hf)
      as (c & Hc & _ & Hserved).
    destruct (Hserved Hsup Hns) as (v & Hv & Hs).
    by rewrite (getattr_Some _ _ _ Hc), Hv, Hs.
Qed.

Lemma update_match_echoes_request_witness :
  ∃ resp, (update_match (timestamp kickoff) 1 (request players_body) one_match_db).1
          = Ok resp
    ∧ values resp !! "id" = Some (VInt 1)
    ∧ ∀ f, f ∈ MatchCreate_fields → fname f ∈ fields_set (request players_body) →
        fname f ≠ "start_time" →
        values resp !! fname f = normalized <$> values (request players_body) !! fname f.
Proof.
  apply (update_match_echoes_request _ _ players_body).
  - vm_compute. reflexivity.
  - apply (bool_decide_unpack _). vm_compute. reflexivity.
  - apply rows_ok_one_match_db.
  - apply (bool_decide_unpack _). vm_compute. reflexivity.
Defined.

(** X15 — A match that passed the date and tournament checks of
    [create_match] is listed by the next [get_matches], whatever
    [create_match] answered: the listing is the previous one followed by
    one record, which carries the new id and every declared field as sent,
    lists included, an empty list as null. *)
Theorem created_match_is_listed clock body m db :
  MatchCreate body = Ok m → well_formed_request m → rows_ok db →
  value_lt (getattr (values m) "date") (minus_minutes (datetime_now clock) 5)
    = Ok false →
  tournament_found m db = true →
  ∃ recs rec,
    get_matches db = (Ok recs, db)
    ∧ (get_matches (create_match clock m db).2).1 = Ok (recs ++ [rec])
    ∧ values rec !! "id" = Some (VInt (next_id (match_table db)))
    ∧ ∀ f, f ∈ MatchCreate_fields →
        values rec !! fname f = normalized <$> values m !! fname f.
Proof.
  intros Hm Hwf Hdb Hlt Hfound.
  destruct (new_Match_ok body m Hm) as (r & d & Hr & _).
  assert (Hdb' : (create_match clock m db).2 = inserted db r).
  { by rewrite create_match_unfold, Hlt, Hfound, Hr. }
  rewrite Hdb', !get_matches_unfold. cbn [fst inserted match_table].
  destruct (listing_ok (match_table db) Hdb) as (recs & Hrecs & _).
  set (n := next_id (match_table db)).
  destruct (decoded_row_ok (<["id" := VInt n]> r)) as (rec & Hrec & Hlook).
  { by apply (new_row_ok body m). }
  exists recs, rec.
  rewrite Hrecs, (comprehension_snoc _ _ _ _ _ Hrecs Hrec).
  split_and!; [done | done | |].
  - pose proof (Hlook _ id_field) as Hf'. cbn [fname fty served] in Hf'. rewrite Hf'.
    by rewrite (getattr_Some _ _ (VInt n)) by apply lookup_insert_eq.
  - intros f Hf. rewrite (Hlook f) by (apply elem_of_app; by left).
    destruct (new_row_cells body m r n f Hm Hwf Hr Hf) as (c & v & Hc & _ & Hv & Hs).
    by rewrite (getattr_Some _ _ _ Hc), Hv, Hs.
Qed.

Lemma created_match_is_listed_witness :
  ∃ recs rec,
    get_matches one_match_db = (Ok recs, one_match_db)
    ∧ (get_matches (create_match (timestamp kickoff) (request players_body)
                      one_match_db).2).1 = Ok (recs ++ [rec])
    ∧ values rec !! "id" = Some (VInt (next_id (match_table one_match_db)))
    ∧ ∀ f, f ∈ MatchCreate_fields →
        values rec !! fname f = normalized <$> values (request players_body) !! fname f.
Proof.
  apply (created_match_is_listed _ players_body).
  - vm_compute. reflexivity.
  - apply (bool_decide_unpack _). vm_compute. reflexivity.
  - apply rows_ok_one_match_db.
  - vm_compute. reflexivity.
  - vm_compute. reflexivity.
Defined.

(** ** Tournaments *)

Lemma foldr_max_ge (l : list Z) x : x ∈ l → (x ≤ foldr Z.max 0 l)%Z.
Proof.
  induction l as [|y l IH]; intros H; [by apply elem_of_nil in H|].
  apply elem_of_cons in H as [-> | H]; cbn [foldr]; [lia|].
  specialize (IH H). lia.
Qed.

Lemma next_id_fresh tbl r n :
  r ∈ tbl → r !! "id" = Some (VInt n) → (n < next_id tbl)%Z.
Proof.
  intros Hr Hid. unfold next_id.
  assert (Hn : row_id r = n) by (unfold row_id; by rewrite Hid).
  pose proof (foldr_max_ge (row_id <$> tbl) (row_id r)
                (list_elem_of_fmap_2 _ _ _ Hr)).
  lia.
Qed.

Lemma table_get_snoc tbl r pk :
  (∀ r0, r0 ∈ tbl → r0 !! "id" ≠ Some pk) → r !! "id" = Some pk →
  table_get (tbl ++ [r]) pk = Some r.
Proof.
  intros Hfresh Hid. unfold table_get.
  induction tbl as [|r0 tbl IH]; cbn [app List.find].
  - unfold has_id. by rewrite (bool_decide_eq_true_2 _ Hid).
  - unfold has_id at 1. rewrite bool_decide_eq_false_2.
    + apply IH. intros r1 Hr1. apply Hfresh. apply elem_of_cons. by right.
    + apply Hfresh. apply elem_of_cons. by left.
Qed.

Lemma create_tournament_run tournament db :
  ∃ r n,
    create_tournament tournament db
      = (Ok r, Database (match_table db) (tournament_table db ++ [r]))
    ∧ r !! "id" = Some (VInt n)
    ∧ (∀ r0, r0 ∈ tournament_table db → r0 !! "id" ≠ Some (VInt n))
    ∧ table_get (tournament_table db ++ [r]) (VInt n) = Some r
    ∧ r !! "name" = Some (VStr (TournamentCreate.name tournament))
    ∧ r !! "location" = Some (VStr (TournamentCreate.location tournament))
    ∧ r !! "startDate" = Some (VStr (TournamentCreate.startDate tournament))
    ∧ r !! "endDate" = Some (VStr (TournamentCreate.endDate tournament))
    ∧ r !! "teams" = Some (VStr (dumps_teams (TournamentCreate.teams tournament))).
Proof.
  eexists _, (next_id (tournament_table db)).
  assert (Hfresh : ∀ r0, r0 ∈ tournament_table db →
            r0 !! "id" ≠ Some (VInt (next_id (tournament_table db)))).
  { intros r0 Hr0 Hid. pose proof (next_id_fresh _ _ _ Hr0 Hid). lia. }
  split_and!; [reflexivity | apply lookup_insert_eq | exact Hfresh | ..].
  - apply table_get_snoc; [exact Hfresh | apply lookup_insert_eq].
  - by rewrite lookup_insert_ne.
  - by rewrite lookup_insert_ne.
  - by rewrite lookup_insert_ne.
  - by rewrite lookup_insert_ne.
  - by rewrite lookup_insert_ne.
Qed.

(** X16 — [create_tournament] answers 200 for every request and leaves the
    matches alone. The row it returns is appended to the tournament table
    under an id that no stored tournament has, so that a lookup by that id
    finds this row; it holds the four texts of the request, and the teams
    as JSON text. The next [get_tournaments] returns the previous rows
    followed by this one. *)
Theorem create_tournament_assigns_fresh_id tournament db :
  ∃ r n,
    create_tournament tournament db
      = (Ok r, Database (match_table db) (tournament_table db ++ [r]))
    ∧ r !! "id" = Some (VInt n)
    ∧ (∀ r0, r0 ∈ tournament_table db → r0 !! "id" ≠ Some (VInt n))
    ∧ table_get (tournament_table (create_tournament tournament db).2) (VInt n)
      = Some r
    ∧ (get_tournaments (create_tournament tournament db).2).1
      = Ok (tournament_table db ++ [r])
    ∧ r !! "name" = Some (VStr (TournamentCreate.name tournament))
    ∧ r !! "location" = Some (VStr (TournamentCreate.location tournament))
    ∧ r !! "startDate" = Some (VStr (TournamentCreate.startDate tournament))
    ∧ r !! "endDate" = Some (VStr (TournamentCreate.endDate tournament))
    ∧ r !! "teams" = Some (VStr (dumps_teams (TournamentCreate.teams tournament))).
Proof.
  destruct (create_tournament_run tournament db)
    as (r & n & Hrun & Hid & Hfresh & Hget & Hname & Hloc & Hstart & Hend & Hteams).
  exists r, n. rewrite Hrun. cbn [snd tournament_table].
  split_and!; done.
Qed.

(** X17 — A match can be created in a tournament that was just created:
    when the request names the id [create_tournament] returned and its date
    is not more than five minutes old, [create_match] passes the tournament
    check and appends one row to the match table, with that tournament
    id. *)
Theorem match_in_created_tournament_is_stored tournament clock body m db r :
  (create_tournament tournament db).1 = Ok r →
  MatchCreate body = Ok m →
  values m !! "tournament_id" = r !! "id" →
  value_lt (getattr (values m) "date") (minus_minutes (datetime_now clock) 5)
    = Ok false →
  ∃ row,
    match_table (create_match clock m (create_tournament tournament db).2).2
      = match_table db ++ [row]
    ∧ row !! "tournament_id" = r !! "id".
Proof.
  intros Hr Hm Htid Hlt.
  destruct (create_tournament_run tournament db)
    as (r' & n & Hrun & Hid & _ & Hget & _).
  rewrite Hrun in Hr |- *. cbn [fst snd] in Hr |- *.
  assert (r' = r) as -> by congruence.
  rewrite Hid in Htid.
  set (db' := Database _ _).
  assert (Hfound : tournament_found m db' = true).
  { unfold tournament_found. rewrite (getattr_Some _ _ _ Htid).
    rewrite (bool_decide_eq_true_2 (VInt n ≠ VNone)) by done.
    apply bool_decide_eq_true_2. unfold db'. cbn [tournament_table].
    rewrite Hget. eauto. }
  destruct (new_Match_ok body m Hm) as (r1 & d & Hr1 & _ & _ & _ & _ & Hplain).
  rewrite create_match_unfold, Hlt, Hfound, Hr1.
  cbn [snd inserted match_table]. unfold db' at 1. cbn [match_table].
  eexists. split; [reflexivity|].
  rewrite lookup_insert_ne by done.
  rewrite Hplain by (intros H; by apply (bool_decide_pack _) in H; vm_compute in H).
  by rewrite Htid, Hid.
Qed.

Lemma match_in_created_tournament_is_stored_witness :
  ∃ row,
    match_table
      (create_match (timestamp kickoff)
         (request (<["tournament_id" := VInt 1]> sample_body))
         (create_tournament sample_tournament empty_db).2).2
      = match_table empty_db ++ [row]
    ∧ row !! "tournament_id"
      = default ∅ (table_get (tournament_table
                                (create_tournament sample_tournament empty_db).2)
                     (VInt 1)) !! "id".
Proof.
  apply (match_in_created_tournament_is_stored sample_tournament (timestamp kickoff)
           (<["tournament_id" := VInt 1]> sample_body)).
  - vm_compute. reflexivity.
  - vm_compute. reflexivity.
  - vm_compute. reflexivity.
  - vm_compute. reflexivity.
Defined.

(** ** Text outside the well-formed strings *)

Lemma escape_char_surrogate c :
  55296 ≤ c → c ≤ 57343 → escape_char c = u_escape c.
Proof.
  intros H1 H2. unfold escape_char.
  rewrite !(proj2 (N.eqb_neq c _)) by lia.
  destruct (N.leb_spec c 126); [lia|]. rewrite andb_false_r.
  destruct (N.ltb_spec c 65536); [done | lia].
Qed.

Lemma skip_ws_bracket s : skip_ws (91 :: s) = 91 :: s.
Proof. reflexivity. Qed.

(** X18 — The list codec merges a surrogate pair that a string spells as
    two code points: for a high surrogate [h] and a low surrogate [l],
    [json.loads(json.dumps([h l]))] is not the two-character string that
    went in but the one-character string of the code point the pair
    encodes. *)
Theorem split_surrogate_pair_comes_back_merged h l :
  is_high h = true → is_low l = true →
  Json.loads (Json.dumps [[h; l]])
  = Some [[65536 + (h - 55296) * 1024 + (l - 56320)]].
Proof.
  intros Hh Hl.
  pose proof Hh as Hh'. pose proof Hl as Hl'.
  apply andb_true_iff in Hh' as [Hh1 Hh2]. apply N.leb_le in Hh1, Hh2.
  apply andb_true_iff in Hl' as [Hl1 Hl2]. apply N.leb_le in Hl1, Hl2.
  unfold loads, dumps. cbn [join_items]. unfold encode_basestring_ascii.
  cbn [escape].
  rewrite (escape_char_surrogate h), (escape_char_surrogate l) by lia.
  unfold u_escape, hex4. cbn [app length].
  rewrite skip_ws_bracket. change (91 =? 91) with true. cbv iota.
  rewrite skip_ws_quote. change (34 =? 93) with false. cbv iota.
  cbn [array_items]. change (34 =? 34) with true. cbv iota.
  rewrite (scanstring_u _ _ _ _ _ h) by (apply decode_hex4; lia).
  rewrite Hh. unfold probe_pair.
  change ((92 =? 92) && (117 =? 117)) with true. cbv iota.
  rewrite decode_hex4 by lia. rewrite Hl.
  change (scanstring [34; 93]) with (Some (@nil N, [93])).
  cbn [push]. change (skip_ws [93]) with [93].
  change (93 =? 93) with true. cbv iota. change (skip_ws []) with (@nil N).
  rewrite N.shiftl_mul_pow2. change (2 ^ 10) with 1024.
  rewrite lor_low_bits by lia. by rewrite N.add_assoc.
Qed.

Lemma split_surrogate_pair_comes_back_merged_witness :
  Json.loads (Json.dumps [[55357; 56832]]) = Some [[128512]].
Proof. apply (split_surrogate_pair_comes_back_merged 55357 56832); reflexivity. Defined.

(** ** Replayed updates *)

Lemma updated_data_replay clock clock' body m r ud ud' :
  MatchCreate body = Ok m →
  updated_data clock m r = Ok ud →
  updated_data clock' m (ud ∪ r) = Ok ud' →
  ud' ∪ (ud ∪ r) = ud ∪ r.
Proof.
  intros Hm Hud Hud'.
  destruct (updated_data_ok clock body m r Hm)
    as (u & Hu & Hunset & Hst & (d & Hmdate & Hdate) & Hlists & Hplain).
  assert (u = ud) as -> by congruence.
  destruct (updated_data_ok clock' body m (ud ∪ r) Hm)
    as (u' & Hu' & Hunset' & Hst' & (d' & Hmdate' & Hdate') & Hlists' & Hplain').
  assert (u' = ud') as -> by congruence.
  assert (d' = d) as -> by congruence.
  apply map_eq. intros k. rewrite (lookup_union_match ud').
  destruct (decide (k = "start_time")) as [-> | Hns].
  - rewrite Hst', lookup_union_match.
    assert (Hsame : ud !! "start_time" = None →
              stamp_fires m (ud ∪ r) = stamp_fires m r).
    { intros H. unfold stamp_fires. by rewrite getattr_union, H. }
    destruct (ud !! "start_time") as [c|] eqn:Ec;
      destruct (values m !! "start_time") as [[]|] eqn:Ev;
      rewrite ?Ec, ?Ev in Hst; try (by rewrite <- Hst).
    all: destruct (stamp_fires m r) eqn:E1; try done.
    all: first [ by rewrite Hsame
               | rewrite stamp_fires_set;
                 [done | rewrite getattr_union, Ec; by injection Hst as ->] ].
  - destruct (decide (k ∈ fields_set m)) as [Hin | Hout];
      [|by rewrite (Hunset' _ Hout Hns)].
    rewrite lookup_union_match.
    destruct (decide (k = "date")) as [-> | Hnd]; [by rewrite Hdate', Hdate|].
    destruct (decide (k ∈ LIST_FIELDS)) as [Hl | Hnl].
    + rewrite (Hlists' _ Hl Hin), (Hlists _ Hl Hin).
      by destruct (values m !! k).
    + rewrite (Hplain' _ Hin Hnl Hnd Hns), (Hplain _ Hin Hnl Hnd Hns).
      by destruct (values m !! k).
Qed.

(** X19 — Replaying an update changes nothing: when a validated request
    has been applied by [update_match], applying it again to the same id,
    at any later reading of the clock, leaves the database as the first
    application left it. The start time stamped by the first application
    is not stamped again. *)
Theorem update_match_replay_changes_nothing clock clock' match_id body m db :
  MatchCreate body = Ok m →
  (update_match clock' match_id m (update_match clock match_id m db).2).2
  = (update_match clock match_id m db).2.
Proof.
  intros Hm.
  destruct (table_get (match_table db) (VInt match_id)) as [r|] eqn:Hget.
  - destruct (updated_data_ok clock body m r Hm) as (ud & Hud & Hunset & _).
    rewrite (update_match_found _ _ _ _ _ _ Hget Hud). cbn [snd].
    set (row1 := ud ∪ r).
    assert (Hid : row1 !! "id" = Some (VInt match_id)).
    { unfold row1. destruct (MatchCreate_no_id body m Hm) as [_ Hnid].
      rewrite lookup_union_match, (Hunset _ Hnid) by done.
      by apply table_get_Some in Hget as [_ ?]. }
    destruct (updated_data_ok clock' body m row1 Hm) as (ud' & Hud' & _).
    erewrite update_match_found; [| |exact Hud'].
    + cbn [snd match_table tournament_table]. f_equal. subst row1.
      rewrite (updated_data_replay clock clock' body m r ud ud' Hm Hud Hud').
      apply list_eq. intros i. rewrite !list_lookup_fmap.
      destruct (match_table db !! i) as [r0|]; [|done]. cbn. f_equal.
      destruct (has_id (VInt match_id) r0) eqn:E; [|by rewrite E].
      unfold has_id at 1. by rewrite (bool_decide_eq_true_2 _ Hid).
    + cbn [match_table].
      rewrite (table_get_update _ _ _ _ Hid), Hget. by rewrite decide_True.
  - by rewrite !(update_match_missing _ _ _ _ Hget).
Qed.

Lemma update_match_replay_changes_nothing_witness :
  (update_match (timestamp kickoff + 600000000) 1 (request started_body)
     started_db).2 = started_db.
Proof.
  apply (update_match_replay_changes_nothing _ _ _ started_body).
  vm_compute. reflexivity.
Defined.
